(** * az_scout.obo_auth: On-Behalf-Of token delegation

    A shallow embedding of [src/az_scout/obo_auth.py] and the properties of
    its request token context, OBO exchanger, claim extractor and ASGI
    middleware.

    Conventions.  A Python [str] is a list of code points, a [bytes] object
    a list of bytes.  A computation that may raise returns an [outcome];
    the functions of the module that read or write module globals, the
    context variable or the identity provider thread a [module_state]. *)

From Stdlib Require Import ZArith NArith List String Ascii Lia Bool.
From Stdlib.Strings Require Import Byte.
From stdpp Require Import base option list gmap strings.

Set Default Proof Using "Type".
Set Warnings "-register-all".
Open Scope N_scope.

(** ** Python values used by the module *)

Module Py.

(** [str]: a sequence of Unicode code points. *)
Definition str := list N.

(** [bytes]: a sequence of octets. *)
Definition bytes := list byte.

(** A [str] literal made of ASCII (Latin-1) characters. *)
Definition text (s : string) : str := map Byte.to_N (list_byte_of_string s).

(** The empty [str]. *)
Definition empty_str : str := [].

(** A [bytes] literal. *)
Definition blit (s : string) : bytes := list_byte_of_string s.

(** Instances of [Exception] that the modelled code can raise.  The
    interpreter's asynchronous interrupts ([KeyboardInterrupt],
    [SystemExit]), which are not instances of [Exception], are outside the
    model. *)
Inductive exn : Type :=
| IndexError
| KeyError
| ValueError
| UnicodeDecodeError
| AttributeError
| binascii_Error
| JSONDecodeError
| RecursionError
| OtherException (name : string).

Inductive outcome (A : Type) : Type :=
| Ret (a : A)
| Raise (e : exn).
Arguments Ret {A} a.
Arguments Raise {A} e.

Definition obind {A B} (m : outcome A) (k : A -> outcome B) : outcome B :=
  match m with
  | Ret a => k a
  | Raise e => Raise e
  end.

(** *** bytes.decode(): strict UTF-8 *)

Definition cont (b : byte) : option N :=
  let n := Byte.to_N b in
  if (128 <=? n) && (n <=? 191) then Some (n - 128) else None.

Definition in_range (lo hi : N) (b : byte) : bool :=
  let n := Byte.to_N b in (lo <=? n) && (n <=? hi).

(** Well-formed UTF-8 byte sequences (Unicode table 3-7): no overlong
    forms, no surrogates, nothing above U+10FFFF. *)
Fixpoint utf8_decode (bs : bytes) : option str :=
  match bs with
  | [] => Some []
  | b0 :: r0 =>
    let n0 := Byte.to_N b0 in
    if n0 <? 128 then cons n0 <$> utf8_decode r0
    else if in_range 194 223 b0 then
      match r0 with
      | b1 :: r1 =>
        match cont b1 with
        | Some c1 => cons ((n0 - 192) * 64 + c1) <$> utf8_decode r1
        | None => None
        end
      | _ => None
      end
    else if in_range 224 239 b0 then
      match r0 with
      | b1 :: b2 :: r2 =>
        let lo := if n0 =? 224 then 160 else 128 in
        let hi := if n0 =? 237 then 159 else 191 in
        if in_range lo hi b1 then
          match cont b1, cont b2 with
          | Some c1, Some c2 =>
            cons ((n0 - 224) * 4096 + c1 * 64 + c2) <$> utf8_decode r2
          | _, _ => None
          end
        else None
      | _ => None
      end
    else if in_range 240 244 b0 then
      match r0 with
      | b1 :: b2 :: b3 :: r3 =>
        let lo := if n0 =? 240 then 144 else 128 in
        let hi := if n0 =? 244 then 143 else 191 in
        if in_range lo hi b1 then
          match cont b1, cont b2, cont b3 with
          | Some c1, Some c2, Some c3 =>
            cons ((n0 - 240) * 262144 + c1 * 4096 + c2 * 64 + c3)
              <$> utf8_decode r3
          | _, _, _ => None
          end
        else None
      | _ => None
      end
    else None
  end.

(** [b.decode()] with the default codec and error handler. *)
Definition decode (bs : bytes) : outcome str :=
  match utf8_decode bs with
  | Some s => Ret s
  | None => Raise UnicodeDecodeError
  end.

(** *** str.lower() *)

Definition ascii_lower (c : N) : N :=
  if (65 <=? c) && (c <=? 90) then c + 32 else c.

(** [s.lower()].  ASCII letters are lowered here; the lowering of a code
    point above 127 comes from the interpreter's Unicode case tables and is
    the parameter [unicode_lower] (one to three code points). *)
Definition lower (unicode_lower : N -> list N) (s : str) : str :=
  flat_map (fun c => if c <? 128 then [ascii_lower c] else unicode_lower c) s.

(** *** str.strip() *)

(** [c.isspace()]: bidirectional type WS, B or S, or category Zs. *)
Definition isspace (c : N) : bool :=
  ((9 <=? c) && (c <=? 13)) || ((28 <=? c) && (c <=? 32))
  || (c =? 133) || (c =? 160) || (c =? 5760)
  || ((8192 <=? c) && (c <=? 8202))
  || (c =? 8232) || (c =? 8233) || (c =? 8239) || (c =? 8287) || (c =? 12288).

Fixpoint lstrip (s : str) : str :=
  match s with
  | c :: r => if isspace c then lstrip r else s
  | [] => []
  end.

Definition rstrip (s : str) : str := rev (lstrip (rev s)).

Definition strip (s : str) : str := rstrip (lstrip s).

(** *** str.startswith, slicing, str.split *)

Fixpoint startswith (s p : str) : bool :=
  match p, s with
  | [], _ => true
  | x :: p', y :: s' => (x =? y) && startswith s' p'
  | _ :: _, [] => false
  end.

(** [s[n:]] for a non-negative [n]. *)
Definition slice_from (n : nat) (s : str) : str := skipn n s.

(** [s.split(sep)] for a one-character separator: one segment more than
    there are separators, never an empty list. *)
Fixpoint split (sep : N) (s : str) : list str :=
  match s with
  | [] => [[]]
  | c :: r =>
    if c =? sep then [] :: split sep r
    else match split sep r with
         | seg :: segs => (c :: seg) :: segs
         | [] => [[c]]
         end
  end.

(** [l[i]] for a non-negative index. *)
Definition index {A} (l : list A) (i : nat) : outcome A :=
  match nth_error l i with
  | Some x => Ret x
  | None => Raise IndexError
  end.

(** [c * n] for a one-character string [c]. *)
Definition repeat_char (c : N) (n : nat) : str := repeat c n.

(** [-n % 4] on a length: Python's [%] has the sign of the divisor. *)
Definition neg_mod4 (n : nat) : nat := Z.to_nat ((- Z.of_nat n) mod 4)%Z.

(** *** Dynamically typed values (what [json.loads] can return) *)

Inductive pyvalue : Type :=
| PNone
| PBool (b : bool)
| PInt (z : Z)
| PFloat (mantissa exponent10 : Z)   (* float of mantissa * 10 ** exponent10 *)
| PInf (negative : bool)
| PNaN
| PStr (s : str)
| PList (l : list pyvalue)
| PDict (d : list (str * pyvalue)).

(** A decimal rounds to the float 0.0 iff it is zero or at most 2 ** -1075
    in magnitude (round-half-even below the least subnormal). *)
Definition float_is_zero (m e : Z) : bool :=
  ((m =? 0) || ((e <? 0) && (Z.abs m * 2 ^ 1075 <=? 10 ^ (- e))))%Z.

(** [bool(v)]. *)
Definition truthy (v : pyvalue) : bool :=
  match v with
  | PNone => false
  | PBool b => b
  | PInt z => negb (z =? 0)%Z
  | PFloat m e => negb (float_is_zero m e)
  | PInf _ | PNaN => true
  | PStr s => match s with [] => false | _ => true end
  | PList l => match l with [] => false | _ => true end
  | PDict d => match d with [] => false | _ => true end
  end.

(** [bool(s)] for a [str]. *)
Definition str_truthy (s : str) : bool :=
  match s with [] => false | _ => true end.

(** [a or b]. *)
Definition por (a b : pyvalue) : pyvalue := if truthy a then a else b.

Definition str_eqb (a b : str) : bool := bool_decide (a = b).

(** Lookup in a [dict] kept as an association list with unique keys. *)
Fixpoint dict_lookup (k : str) (d : list (str * pyvalue)) : option pyvalue :=
  match d with
  | [] => None
  | (k', v) :: d' => if str_eqb k k' then Some v else dict_lookup k d'
  end.

(** [d[k] = v]: replace in place, or append a new key at the end. *)
Fixpoint dict_set (k : str) (v : pyvalue) (d : list (str * pyvalue))
  : list (str * pyvalue) :=
  match d with
  | [] => [(k, v)]
  | (k', v') :: d' =>
    if str_eqb k k' then (k, v) :: d' else (k', v') :: dict_set k v d'
  end.

(** [v.get(k)]: the method exists on a [dict] only. *)
Definition get (v : pyvalue) (k : str) : outcome pyvalue :=
  match v with
  | PDict d => Ret (default PNone (dict_lookup k d))
  | _ => Raise AttributeError
  end.

End Py.

Import Py.

(** ** External collaborators *)

(** [azure.core.credentials.AccessToken]: the issued token string. *)
Record AccessToken : Type := { token : str }.

(** Functions of the interpreter and its standard library that the module
    calls: the Unicode lower-casing of non-ASCII code points,
    [base64.urlsafe_b64decode] and [json.loads]. *)
Class PyRuntime : Type := {
  unicode_lower : N -> list N;
  urlsafe_b64decode : str -> outcome bytes;
  json_loads : bytes -> outcome pyvalue
}.

(** The identity-exchange dependency, [azure.identity]: the provider has a
    state of its own, which the constructor of [OnBehalfOfCredential] and
    [get_token] may read and change, and each may raise. *)
Class AzureIdentity : Type := {
  idp_state : Type;
  credential : Type;
  OnBehalfOfCredential :
    forall (tenant_id client_id client_secret user_assertion : str),
      idp_state -> outcome credential * idp_state;
  get_token : credential -> str -> idp_state -> outcome AccessToken * idp_state
}.

(** A call made to the identity-exchange dependency. *)
Inductive idp_call : Type :=
| NewCredential (tenant_id client_id client_secret user_assertion : str)
| GetToken (scope : str).

(** A record handed to the module's logger. *)
Inductive log_record : Type :=
| Warning (msg : str).

(** The binding of a [ContextVar] in one context: unbound, or bound to a
    value of type [str | None]. *)
Definition binding := option (option str).

(** [os.environ]. *)
Definition environ := gmap string str.

(** [os.environ.get(name, default)] with the empty string as default. *)
Definition environ_get (env : environ) (name : string) : str :=
  default empty_str (env !! name).

(** ** The module *)

Section module_state.
Context `{AzureIdentity}.

(** What the functions of the module can read and write: the three module
    globals read from the environment at import, the binding of
    [_user_bearer_token] in the current context, the identity provider,
    and two journals: the calls made to the provider and the records
    logged. *)
Record module_state : Type := {
  OBO_CLIENT_ID : str;
  OBO_CLIENT_SECRET : str;
  OBO_TENANT_ID : str;
  _user_bearer_token : binding;
  idp : idp_state;
  idp_calls : list idp_call;
  log_records : list log_record
}.

(** The module right after import, in a fresh context. *)
Definition module_init (env : environ) (provider : idp_state) : module_state :=
  {| OBO_CLIENT_ID := environ_get env "AZURE_OBO_CLIENT_ID";
     OBO_CLIENT_SECRET := environ_get env "AZURE_OBO_CLIENT_SECRET";
     OBO_TENANT_ID := environ_get env "AZURE_OBO_TENANT_ID";
     _user_bearer_token := None;
     idp := provider;
     idp_calls := [];
     log_records := [] |}.

(** The state with the binding of [_user_bearer_token] replaced, and
    nothing else. *)
Definition with_binding (b : binding) (s : module_state) : module_state :=
  {| OBO_CLIENT_ID := OBO_CLIENT_ID s;
     OBO_CLIENT_SECRET := OBO_CLIENT_SECRET s;
     OBO_TENANT_ID := OBO_TENANT_ID s;
     _user_bearer_token := b;
     idp := idp s;
     idp_calls := idp_calls s;
     log_records := log_records s |}.

Definition ARM_SCOPE : str := text "https://management.azure.com/.default".

(** Computations over the module state that return or raise. *)
Definition M (A : Type) : Type := module_state -> outcome A * module_state.

Definition ret {A} (a : A) : M A := fun s => (Ret a, s).

Definition bind {A B} (m : M A) (k : A -> M B) : M B :=
  fun s => match m s with
           | (Ret a, s') => k a s'
           | (Raise e, s') => (Raise e, s')
           end.

Definition lift {A} (o : outcome A) : M A := fun s => (o, s).

Definition gets {A} (f : module_state -> A) : M A := fun s => (Ret (f s), s).

(** [try: body except Exception: handler]; what the body wrote before it
    raised stays written. *)
Definition try_except {A} (body handler : M A) : M A :=
  fun s => match body s with
           | (Ret a, s') => (Ret a, s')
           | (Raise _, s') => handler s'
           end.

End module_state.

Notation "'do' x <- m ; k" := (bind m (fun x => k))
  (at level 10, x name, m at level 100, k at level 200).
Notation "'run' m ; k" := (bind m (fun _ => k))
  (at level 10, m at level 100, k at level 200).

Section obo_auth.
Context `{PyRuntime} `{AzureIdentity}.

(** [logger.warning(msg)]. *)
Definition logger_warning (msg : str) : M unit :=
  fun s => (Ret tt,
            {| OBO_CLIENT_ID := OBO_CLIENT_ID s;
               OBO_CLIENT_SECRET := OBO_CLIENT_SECRET s;
               OBO_TENANT_ID := OBO_TENANT_ID s;
               _user_bearer_token := _user_bearer_token s;
               idp := idp s;
               idp_calls := idp_calls s;
               log_records := log_records s ++ [Warning msg] |}).

(** A call into the identity-exchange dependency: noted in the journal,
    then run on the provider's state. *)
Definition call_idp {A} (c : idp_call)
    (f : idp_state -> outcome A * idp_state) : M A :=
  fun s => let '(r, p) := f (idp s) in
           (r,
            {| OBO_CLIENT_ID := OBO_CLIENT_ID s;
               OBO_CLIENT_SECRET := OBO_CLIENT_SECRET s;
               OBO_TENANT_ID := OBO_TENANT_ID s;
               _user_bearer_token := _user_bearer_token s;
               idp := p;
               idp_calls := idp_calls s ++ [c];
               log_records := log_records s |}).

Definition new_OnBehalfOfCredential
    (tenant_id client_id client_secret user_assertion : str) : M credential :=
  call_idp (NewCredential tenant_id client_id client_secret user_assertion)
           (OnBehalfOfCredential tenant_id client_id client_secret
                                 user_assertion).

Definition cred_get_token (cred : credential) (scope : str) : M AccessToken :=
  call_idp (GetToken scope) (get_token cred scope).

(** [ContextVar.get()] with [default=None]. *)
Definition ContextVar_get (b : binding) : option str :=
  match b with
  | Some v => v
  | None => None
  end.

(** [bool(x)] for [x : str | None]. *)
Definition opt_truthy (x : option str) : bool :=
  match x with
  | Some s => str_truthy s
  | None => false
  end.

(** [a or b] for [a, b : str | None]. *)
Definition opt_or (a b : option str) : option str :=
  if opt_truthy a then a else b.

(** [a or b] for [a : str | None] and [b : str]. *)
Definition or_default (a : option str) (b : str) : str :=
  match a with
  | Some s => if str_truthy s then s else b
  | None => b
  end.

(** [def is_obo_configured() -> bool] *)
Definition is_obo_configured : M bool :=
  do client_id <- gets OBO_CLIENT_ID;
  if str_truthy client_id then
    do client_secret <- gets OBO_CLIENT_SECRET;
    if str_truthy client_secret then
      do tenant <- gets OBO_TENANT_ID;
      ret (str_truthy tenant)
    else ret false
  else ret false.

(** [def get_user_token() -> str | None] *)
Definition get_user_token : M (option str) :=
  do b <- gets _user_bearer_token;
  ret (ContextVar_get b).

(** [def set_user_token(token: str | None) -> None] *)
Definition set_user_token (tok : option str) : M unit :=
  fun s => (Ret tt, with_binding (Some tok) s).

(** The headers of a successful exchange, a two-entry [dict]. *)
Definition arm_headers (issued : AccessToken) : list (str * str) :=
  [ (text "Authorization", text "Bearer " ++ token issued);
    (text "Content-Type", text "application/json") ].

(** [def _exchange_obo(user_token, tenant_id=None) -> dict[str, str] | None];
    the import of [OnBehalfOfCredential] at its head binds the constructor
    of the [AzureIdentity] instance. *)
Definition _exchange_obo (user_token : str) (tenant_id : option str)
  : M (option (list (str * str))) :=
  try_except
    (do default_tenant <- gets OBO_TENANT_ID;
     do client_id <- gets OBO_CLIENT_ID;
     do client_secret <- gets OBO_CLIENT_SECRET;
     do cred <- new_OnBehalfOfCredential
                  (or_default tenant_id default_tenant)
                  client_id client_secret user_token;
     do issued <- cred_get_token cred ARM_SCOPE;
     ret (Some (arm_headers issued)))
    (run logger_warning (text "OBO token exchange failed");
     ret None).

(** [def get_obo_headers(tenant_id=None) -> dict[str, str] | None] *)
Definition get_obo_headers (tenant_id : option str)
  : M (option (list (str * str))) :=
  do user_token <- get_user_token;
  match user_token with
  | Some t =>
    if str_truthy t then
      do configured <- is_obo_configured;
      if configured then _exchange_obo t tenant_id else ret None
    else ret None
  | None => ret None
  end.

(** [def check_obo_tenant_auth(user_token: str, tenant_id: str) -> bool] *)
Definition check_obo_tenant_auth (user_token tenant_id : str) : M bool :=
  try_except
    (do client_id <- gets OBO_CLIENT_ID;
     do client_secret <- gets OBO_CLIENT_SECRET;
     do cred <- new_OnBehalfOfCredential tenant_id client_id client_secret
                                         user_token;
     run cred_get_token cred ARM_SCOPE;
     ret true)
    (ret false).

(** [def get_user_tenant_id() -> str | None]; the value returned is
    whatever the claim holds, [PNone] standing for [None]. *)
Definition get_user_tenant_id : M pyvalue :=
  do user_token <- get_user_token;
  match user_token with
  | Some t =>
    if str_truthy t then
      try_except
        (do segment <- lift (index (split 46 t) 1);
         let payload :=
           segment ++ repeat_char 61 (neg_mod4 (length segment)) in
         do raw <- lift (urlsafe_b64decode payload);
         do claims <- lift (json_loads raw);
         do tid <- lift (obind (get claims (text "tid")) (fun a =>
                     if truthy a then Ret a
                     else get claims (text "tenant_id")));
         ret tid)
        (ret PNone)
    else ret PNone
  | None => ret PNone
  end.

End obo_auth.

(** ** The ASGI middleware *)

(** The connection scope handed over by the ASGI server: [scope["type"]]
    and [scope["headers"]], either key possibly missing. *)
Record asgi_scope : Type := {
  scope_type : option str;
  scope_headers : option (list (bytes * bytes))
}.

Module OBOMiddleware.
Section methods.
Context `{PyRuntime} `{AzureIdentity}.
Context {Receive Send : Type}.

(** An instance: [self.app], the next ASGI application. *)
Record t : Type := { app : asgi_scope -> Receive -> Send -> M unit }.

(** [def __init__(self, app)] *)
Definition __init__ (next : asgi_scope -> Receive -> Send -> M unit) : t :=
  {| app := next |}.

(** The body of the [for] loop of [_extract_token], on the two local
    variables [(easyauth_token, auth_token)]. *)
Definition header_step (vars : option str * option str) (h : bytes * bytes)
  : outcome (option str * option str) :=
  let '(easyauth_token, auth_token) := vars in
  let '(name, value) := h in
  obind (decode name) (fun decoded =>
  let header_name := lower unicode_lower decoded in
  if str_eqb header_name (text "x-ms-token-aad-access-token") then
    obind (decode value) (fun v => Ret (Some v, auth_token))
  else if str_eqb header_name (text "authorization") then
    obind (decode value) (fun auth_value =>
    if startswith (lower unicode_lower auth_value) (text "bearer ") then
      Ret (easyauth_token, Some (strip (slice_from 7 auth_value)))
    else Ret (easyauth_token, auth_token))
  else Ret (easyauth_token, auth_token)).

Fixpoint for_headers (vars : option str * option str)
    (hs : list (bytes * bytes)) : outcome (option str * option str) :=
  match hs with
  | [] => Ret vars
  | h :: rest => obind (header_step vars h) (fun vars' => for_headers vars' rest)
  end.

(** [def _extract_token(scope) -> str | None] (a static method) *)
Definition _extract_token (scope : asgi_scope) : outcome (option str) :=
  obind (for_headers (None, None) (default [] (scope_headers scope)))
        (fun '(easyauth_token, auth_token) =>
           Ret (opt_or easyauth_token auth_token)).

(** [scope["type"]] *)
Definition scope_getitem_type (scope : asgi_scope) : outcome str :=
  match scope_type scope with
  | Some ty => Ret ty
  | None => Raise KeyError
  end.

(** [async def __call__(self, scope, receive, send) -> None] *)
Definition __call__ (self : t) (scope : asgi_scope) (receive : Receive)
    (send : Send) : M unit :=
  do ty <- lift (scope_getitem_type scope);
  run (if str_eqb ty (text "http") then
         do tok <- lift (_extract_token scope);
         set_user_token tok
       else ret tt);
  app self scope receive send.

End methods.
End OBOMiddleware.

(** ** Requests as tasks

    The host runs every request in a task of its own, and every task runs
    in a context of its own (PEP 567): the event loop enters the context of
    a task for each of its steps, and a new task starts from a copy of the
    context of the task that creates it. *)

Section tasks.
Context `{AzureIdentity}.

(** What all tasks share, and the context of each task; the binding held in
    [shared] is the one of the task that ran last. *)
Record system : Type := {
  shared : module_state;
  contexts : gmap nat binding
}.

(** The binding of [_user_bearer_token] in the context of task [task]. *)
Definition context_of (sys : system) (task : nat) : binding :=
  default None (contexts sys !! task).

(** One step of task [task]: the computation [m] runs in its context. *)
Definition run_in {A} (task : nat) (m : M A) (sys : system)
  : outcome A * system :=
  let '(r, s') := m (with_binding (context_of sys task) (shared sys)) in
  (r, {| shared := s';
         contexts := <[task := _user_bearer_token s']> (contexts sys) |}).

(** Task creation: the child starts from a copy of the parent's context. *)
Definition create_task (parent child : nat) (sys : system) : system :=
  match contexts sys !! child with
  | Some _ => sys
  | None => {| shared := shared sys;
               contexts := <[child := context_of sys parent]> (contexts sys) |}
  end.

(** What the scheduler can do next. *)
Inductive event : Type :=
| Step (task : nat) (A : Type) (m : M A)
| Create (parent child : nat).

Definition exec_event (ev : event) (sys : system) : system :=
  match ev with
  | Step task _ m => snd (run_in task m sys)
  | Create parent child => create_task parent child sys
  end.

(** A schedule: the interleaving chosen by the scheduler. *)
Definition exec (sched : list event) (sys : system) : system :=
  fold_left (fun acc ev => exec_event ev acc) sched sys.

(** The event is not a step of task [task]. *)
Definition not_step_of (task : nat) (ev : event) : Prop :=
  match ev with
  | Step task' _ _ => task' <> task
  | Create _ _ => True
  end.

End tasks.

(** ** A reference runtime

    Executable counterparts of the library functions behind [PyRuntime],
    used to run the module on concrete tokens.  They follow CPython's
    [binascii.a2b_base64] (non-strict mode) and the scanner of [json] on
    UTF-8 input; input in UTF-16 or UTF-32 and the interpreter's recursion
    limit are not covered.  The theorems below hold for every runtime. *)

Module PyRef.

(** Code points above 127 are left as they are. *)
Definition unicode_lower (c : N) : list N := [c].

(** *** base64.urlsafe_b64decode *)

(** The value of a character of the standard alphabet. *)
Definition b64_value (c : N) : option N :=
  if (65 <=? c) && (c <=? 90) then Some (c - 65)
  else if (97 <=? c) && (c <=? 122) then Some (c - 97 + 26)
  else if (48 <=? c) && (c <=? 57) then Some (c - 48 + 52)
  else if c =? 43 then Some 62
  else if c =? 47 then Some 63
  else None.

(** The loop of [a2b_base64]: padding inside a quad of two or three
    characters ends the input, a character outside the alphabet is
    skipped.  [out] is the output so far, last byte first. *)
Fixpoint a2b_loop (quad_pos : nat) (leftchar : N) (pads : nat) (out : list N)
    (data : list N) : outcome (list N) :=
  match data with
  | [] =>
    match quad_pos with
    | O => Ret (rev out)
    | _ => Raise binascii_Error
    end
  | c :: rest =>
    if c =? 61 then
      if (2 <=? quad_pos)%nat then
        if (4 <=? quad_pos + S pads)%nat then Ret (rev out)
        else a2b_loop quad_pos leftchar (S pads) out rest
      else a2b_loop quad_pos leftchar pads out rest
    else
      match b64_value c with
      | None => a2b_loop quad_pos leftchar pads out rest
      | Some v =>
        match quad_pos with
        | 0%nat => a2b_loop 1 v 0 out rest
        | 1%nat => a2b_loop 2 (N.land v 15) 0
                     (N.lor (N.shiftl leftchar 2) (N.shiftr v 4) :: out) rest
        | 2%nat => a2b_loop 3 (N.land v 3) 0
                     (N.lor (N.shiftl leftchar 4) (N.shiftr v 2) :: out) rest
        | _ => a2b_loop 0 0 0 (N.lor (N.shiftl leftchar 6) v :: out) rest
        end
      end
  end.

(** The translation of the URL-safe alphabet to the standard one. *)
Definition urlsafe_translate (c : N) : N :=
  if c =? 45 then 43 else if c =? 95 then 47 else c.

Definition byte_of_N (n : N) : byte := default x00 (Byte.of_N n).

Definition urlsafe_b64decode (s : str) : outcome bytes :=
  if forallb (fun c => c <? 128) s then
    obind (a2b_loop 0 0 0 [] (map urlsafe_translate s))
          (fun out => Ret (map byte_of_N out))
  else Raise ValueError.

(** *** json.loads *)

Definition is_ws (c : N) : bool :=
  (c =? 32) || (c =? 9) || (c =? 10) || (c =? 13).

Fixpoint skip_ws (s : str) : str :=
  match s with
  | c :: r => if is_ws c then skip_ws r else s
  | [] => []
  end.

Fixpoint drop_prefix (p s : str) : option str :=
  match p, s with
  | [], _ => Some s
  | x :: p', y :: s' => if x =? y then drop_prefix p' s' else None
  | _ :: _, [] => None
  end.

Definition hex_digit (c : N) : option N :=
  if (48 <=? c) && (c <=? 57) then Some (c - 48)
  else if (97 <=? c) && (c <=? 102) then Some (c - 87)
  else if (65 <=? c) && (c <=? 70) then Some (c - 55)
  else None.

(** The four hexadecimal digits of a [\uXXXX] escape. *)
Definition hex4 (s : str) : option (N * str) :=
  match s with
  | a :: b :: c :: d :: r =>
    match hex_digit a, hex_digit b, hex_digit c, hex_digit d with
    | Some a, Some b, Some c, Some d =>
      Some (a * 4096 + b * 256 + c * 16 + d, r)
    | _, _, _, _ => None
    end
  | _ => None
  end.

Definition simple_escape (c : N) : option N :=
  if c =? 34 then Some 34 else if c =? 92 then Some 92
  else if c =? 47 then Some 47 else if c =? 98 then Some 8
  else if c =? 102 then Some 12 else if c =? 110 then Some 10
  else if c =? 114 then Some 13 else if c =? 116 then Some 9
  else None.

(** [scanstring], strict: from just after the opening quote to just after
    the closing one.  [acc] is the string so far, last character first. *)
Fixpoint scanstring (fuel : nat) (acc : str) (s : str) : outcome (str * str) :=
  match fuel with
  | O => Raise JSONDecodeError
  | S fuel' =>
    match s with
    | [] => Raise JSONDecodeError
    | c :: r =>
      if c =? 34 then Ret (rev acc, r)
      else if c =? 92 then
        match r with
        | [] => Raise JSONDecodeError
        | e :: r' =>
          if e =? 117 then
            match hex4 r' with
            | None => Raise JSONDecodeError
            | Some (u, r2) =>
              let pair :=
                if (55296 <=? u) && (u <=? 56319) then
                  match r2 with
                  | 92 :: 117 :: r3 =>
                    match hex4 r3 with
                    | Some (u2, r4) =>
                      if (56320 <=? u2) && (u2 <=? 57343) then
                        Some (65536 + (u - 55296) * 1024 + (u2 - 56320), r4)
                      else None
                    | None => None
                    end
                  | _ => None
                  end
                else None in
              match pair with
              | Some (cp, r4) => scanstring fuel' (cp :: acc) r4
              | None => scanstring fuel' (u :: acc) r2
              end
            end
          else
            match simple_escape e with
            | Some x => scanstring fuel' (x :: acc) r'
            | None => Raise JSONDecodeError
            end
        end
      else if c <? 32 then Raise JSONDecodeError
      else scanstring fuel' (c :: acc) r
    end
  end.

Definition is_digit (c : N) : bool := (48 <=? c) && (c <=? 57).

(** The longest run of ASCII digits at the head of [s]. *)
Fixpoint take_digits (s : str) : list N * str :=
  match s with
  | c :: r =>
    if is_digit c then let '(ds, r') := take_digits r in (c - 48 :: ds, r')
    else ([], s)
  | [] => ([], [])
  end.

Definition digits_value (ds : list N) : Z :=
  fold_left (fun acc d => acc * 10 + Z.of_N d)%Z ds 0%Z.

(** The number pattern of the scanner: an optional minus, then 0 or a
    digit run without leading zero, then an optional fraction (a dot and
    digits), then an optional exponent (e or E, optional sign, digits);
    [int] refuses more than 4300 digits. *)
Definition match_number (s : str) : option (outcome pyvalue * str) :=
  let '(neg, s1) :=
    match s with
    | 45 :: r => (true, r)
    | _ => (false, s)
    end in
  let int_part :=
    match s1 with
    | c :: r =>
      if c =? 48 then Some ([0], r)
      else if is_digit c then Some (take_digits s1)
      else None
    | [] => None
    end in
  match int_part with
  | None => None
  | Some (ids, s2) =>
    let '(fds, s3) :=
      match s2 with
      | 46 :: r =>
        match take_digits r with
        | ([], _) => ([], s2)
        | (ds, r') => (ds, r')
        end
      | _ => ([], s2)
      end in
    let '(ex, s4) :=
      match s3 with
      | e :: r =>
        if (e =? 101) || (e =? 69) then
          let '(eneg, r1) :=
            match r with
            | 45 :: r1 => (true, r1)
            | 43 :: r1 => (false, r1)
            | _ => (false, r)
            end in
          match take_digits r1 with
          | ([], _) => (None, s3)
          | (ds, r2) =>
            (Some (if eneg then (- digits_value ds)%Z else digits_value ds), r2)
          end
        else (None, s3)
      | [] => (None, s3)
      end in
    let sign (z : Z) := if neg then (- z)%Z else z in
    match fds, ex with
    | [], None =>
      if (4300 <? length ids)%nat then Some (Raise ValueError, s4)
      else Some (Ret (PInt (sign (digits_value ids))), s4)
    | _, _ =>
      Some (Ret (PFloat (sign (digits_value (ids ++ fds)))
                        (default 0%Z ex - Z.of_nat (length fds))%Z), s4)
    end
  end.

(** A literal or a number at the head of [s]. *)
Definition scan_atom (s : str) : outcome (pyvalue * str) :=
  match drop_prefix (text "null") s with
  | Some r => Ret (PNone, r)
  | None =>
  match drop_prefix (text "true") s with
  | Some r => Ret (PBool true, r)
  | None =>
  match drop_prefix (text "false") s with
  | Some r => Ret (PBool false, r)
  | None =>
  match match_number s with
  | Some (Ret v, r) => Ret (v, r)
  | Some (Raise e, _) => Raise e
  | None =>
  match drop_prefix (text "NaN") s with
  | Some r => Ret (PNaN, r)
  | None =>
  match drop_prefix (text "Infinity") s with
  | Some r => Ret (PInf false, r)
  | None =>
  match drop_prefix (text "-Infinity") s with
  | Some r => Ret (PInf true, r)
  | None => Raise JSONDecodeError
  end end end end end end end.

(** [scan_once] with the object and array decoders.  [members] starts just
    after the opening quote of a key, [elements] at the start of a value. *)
Fixpoint scan_once (fuel : nat) (s : str) : outcome (pyvalue * str) :=
  match fuel with
  | O => Raise RecursionError
  | S fuel' =>
    match s with
    | [] => Raise JSONDecodeError
    | c :: r =>
      if c =? 34 then
        obind (scanstring (length s) [] r) (fun '(v, r') => Ret (PStr v, r'))
      else if c =? 123 then
        match skip_ws r with
        | c1 :: r1 =>
          if c1 =? 125 then Ret (PDict [], r1)
          else if c1 =? 34 then members fuel' [] r1
          else Raise JSONDecodeError
        | [] => Raise JSONDecodeError
        end
      else if c =? 91 then
        match skip_ws r with
        | c1 :: r1 =>
          if c1 =? 93 then Ret (PList [], r1)
          else elements fuel' [] (c1 :: r1)
        | [] => Raise JSONDecodeError
        end
      else scan_atom s
    end
  end
with members (fuel : nat) (acc : list (str * pyvalue)) (s : str)
  : outcome (pyvalue * str) :=
  match fuel with
  | O => Raise RecursionError
  | S fuel' =>
    obind (scanstring (S (length s)) [] s) (fun '(key, r) =>
    match skip_ws r with
    | c :: r1 =>
      if c =? 58 then
        obind (scan_once fuel' (skip_ws r1)) (fun '(v, r2) =>
        let acc' := dict_set key v acc in
        match skip_ws r2 with
        | c' :: r3 =>
          if c' =? 125 then Ret (PDict acc', r3)
          else if c' =? 44 then
            match skip_ws r3 with
            | q :: r4 =>
              if q =? 34 then members fuel' acc' r4
              else Raise JSONDecodeError
            | [] => Raise JSONDecodeError
            end
          else Raise JSONDecodeError
        | [] => Raise JSONDecodeError
        end)
      else Raise JSONDecodeError
    | [] => Raise JSONDecodeError
    end)
  end
with elements (fuel : nat) (acc : list pyvalue) (s : str)
  : outcome (pyvalue * str) :=
  match fuel with
  | O => Raise RecursionError
  | S fuel' =>
    obind (scan_once fuel' s) (fun '(v, r) =>
    match skip_ws r with
    | c :: r1 =>
      if c =? 93 then Ret (PList (rev (v :: acc)), r1)
      else if c =? 44 then elements fuel' (v :: acc) (skip_ws r1)
      else Raise JSONDecodeError
    | [] => Raise JSONDecodeError
    end)
  end.

(** [JSONDecoder.decode]: one value between optional whitespace. *)
Definition json_decode (s : str) : outcome pyvalue :=
  obind (scan_once (S (length s)) (skip_ws s)) (fun '(v, r) =>
  match skip_ws r with
  | [] => Ret v
  | _ :: _ => Raise JSONDecodeError
  end).

(** [json.loads] on [bytes]: UTF-8, with or without signature. *)
Definition json_loads (data : bytes) : outcome pyvalue :=
  let body :=
    match data with
    | xef :: xbb :: xbf :: rest => rest
    | _ => data
    end in
  obind (decode body) json_decode.

#[export] Instance runtime : PyRuntime :=
  Build_PyRuntime unicode_lower urlsafe_b64decode json_loads.

(** *** A stub of the identity provider

    It issues ["issued-xyz"] for tenant ["tenant1"], rejects tenant
    ["unknown"] and issues ["issued-"] followed by the tenant for every
    other one; its state counts the calls it has served. *)
#[export] Instance identity : AzureIdentity :=
  {| idp_state := nat;
     credential := str;
     OnBehalfOfCredential := fun tenant_id _ _ _ n => (Ret tenant_id, S n);
     get_token := fun cred _ n =>
       (if str_eqb cred (text "tenant1")
        then Ret {| token := text "issued-xyz" |}
        else if str_eqb cred (text "unknown")
        then Raise (OtherException "ClientAuthenticationError")
        else Ret {| token := text "issued-" ++ cred |}, S n) |}.

End PyRef.

(** ** Sample states, for running the module *)

Module Example.

(** All three settings present, the stub provider, and the given binding of
    the context variable. *)
Definition configured (b : binding) : module_state :=
  @Build_module_state PyRef.identity
    (text "client-id") (text "client-secret") (text "tenant1") b 0%nat [] [].

(** The same without a client secret. *)
Definition unconfigured (b : binding) : module_state :=
  @Build_module_state PyRef.identity
    (text "client-id") empty_str (text "tenant1") b 0%nat [] [].

End Example.

(** ** Vocabulary of the statements *)


(** The three names read from the environment at import. *)
Definition obo_settings : list string :=
  ["AZURE_OBO_CLIENT_ID"; "AZURE_OBO_CLIENT_SECRET"; "AZURE_OBO_TENANT_ID"]%string.

(** The setting is present in the environment and not empty. *)
Definition setting_present (env : environ) (name : string) : Prop :=
  exists v, env !! name = Some v /\ v <> [].

Section vocabulary.
Context `{PyRuntime} `{AzureIdentity}.

(** The exchange dependency, called with these arguments on this provider
    state, raises: in the constructor or in [get_token]. *)
Definition exchange_raises (tenant client_id client_secret assertion : str)
    (provider : idp_state) : Prop :=
  (exists e p,
     OnBehalfOfCredential tenant client_id client_secret assertion provider
     = (Raise e, p)) \/
  (exists cred p e p',
     OnBehalfOfCredential tenant client_id client_secret assertion provider
     = (Ret cred, p) /\
     get_token cred ARM_SCOPE p = (Raise e, p')).

(** The exchange dependency, called with these arguments on this provider
    state, issues [issued] and leaves the provider in state [p']. *)
Definition exchange_issues (tenant client_id client_secret assertion : str)
    (provider : idp_state) (issued : AccessToken) (p' : idp_state) : Prop :=
  exists cred p,
    OnBehalfOfCredential tenant client_id client_secret assertion provider
    = (Ret cred, p) /\
    get_token cred ARM_SCOPE p = (Ret issued, p').

(** The state after one exchange that went through: the provider has moved
    to [p'] and the journal holds the two calls made; all else is as in
    [s]. *)
Definition after_exchange (s : module_state) (tenant assertion : str)
    (p' : idp_state) : module_state :=
  {| OBO_CLIENT_ID := OBO_CLIENT_ID s;
     OBO_CLIENT_SECRET := OBO_CLIENT_SECRET s;
     OBO_TENANT_ID := OBO_TENANT_ID s;
     _user_bearer_token := _user_bearer_token s;
     idp := p';
     idp_calls := idp_calls s ++
       [NewCredential tenant (OBO_CLIENT_ID s) (OBO_CLIENT_SECRET s) assertion;
        GetToken ARM_SCOPE];
     log_records := log_records s |}.

(** The tenant of the exchange as the specification words it: the override
    if one is provided, the configured default otherwise. *)
Definition tenant_as_stated (tenant_id : option str) (default_tenant : str)
  : str :=
  match tenant_id with
  | Some t => t
  | None => default_tenant
  end.

(** The tenant the code selects: the override if one is provided and is
    not the empty string, the configured default otherwise. *)
Definition selected_tenant (tenant_id : option str) (default_tenant : str)
  : str :=
  match tenant_id with
  | Some (c :: t) => c :: t
  | Some [] | None => default_tenant
  end.

(** The success postcondition of [get_obo_headers] as the specification
    words it, for one override, one token and one state. *)
Definition success_postcondition_as_stated (tenant_id : option str)
    (tok : str) (s : module_state) : Prop :=
  fst (is_obo_configured s) = Ret true ->
  fst (get_user_token s) = Ret (Some tok) ->
  forall (issued : AccessToken) (p' : idp_state),
    exchange_issues (tenant_as_stated tenant_id (OBO_TENANT_ID s))
      (OBO_CLIENT_ID s) (OBO_CLIENT_SECRET s) tok (idp s) issued p' ->
    get_obo_headers tenant_id s =
    (Ret (Some [ (text "Authorization", text "Bearer " ++ token issued);
                 (text "Content-Type", text "application/json") ]),
     after_exchange s (tenant_as_stated tenant_id (OBO_TENANT_ID s)) tok p').

(** The number of [=] that brings a segment of length [n] to a multiple of
    four characters. *)
Definition padding_length (n : nat) : nat := ((4 - n mod 4) mod 4)%nat.

(** A segment with its base64 padding restored. *)
Definition padded (segment : str) : str :=
  segment ++ repeat 61 (padding_length (length segment)).

(** The claim read from a decoded payload, as the specification words it:
    [tid] if present, else [tenant_id], else absent. *)
Definition claim_as_stated (d : list (str * pyvalue)) : pyvalue :=
  match dict_lookup (text "tid") d with
  | Some v => v
  | None => default PNone (dict_lookup (text "tenant_id") d)
  end.

(** A character of the URL-safe base64 alphabet. *)
Definition is_base64url_char (c : N) : bool :=
  ((65 <=? c) && (c <=? 90)) || ((97 <=? c) && (c <=? 122))
  || ((48 <=? c) && (c <=? 57)) || (c =? 45) || (c =? 95).

(** A segment made of characters of the URL-safe alphabet only. *)
Definition valid_base64url (segment : str) : bool :=
  forallb is_base64url_char segment.

(** A value that JSON can express: no [NaN], no infinity, at any depth. *)
Fixpoint json_expressible (v : pyvalue) : bool :=
  match v with
  | PNaN | PInf _ => false
  | PList l => forallb json_expressible l
  | PDict d => forallb (fun kv => let '(_, x) := kv in json_expressible x) d
  | _ => true
  end.

(** The claim extractor as the specification words it: the payload of a
    three-segment token, and absent for every malformed input, invalid
    base64 and invalid JSON included. *)
Definition extractTenantHint_as_stated (tok : str) : pyvalue :=
  match split 46 tok with
  | [_; segment; _] =>
    if valid_base64url segment then
      match urlsafe_b64decode (padded segment) with
      | Ret raw =>
        match json_loads raw with
        | Ret (PDict d) =>
          if json_expressible (PDict d) then claim_as_stated d else PNone
        | _ => PNone
        end
      | Raise _ => PNone
      end
    else PNone
  | _ => PNone
  end.

(** The claim the code reads from a decoded payload: [tid] when it is
    present and true in a boolean context, otherwise [tenant_id] when it is
    present, otherwise [None]. *)
Definition claim_of (d : list (str * pyvalue)) : pyvalue :=
  match dict_lookup (text "tid") d with
  | Some v => if truthy v then v
              else default PNone (dict_lookup (text "tenant_id") d)
  | None => default PNone (dict_lookup (text "tenant_id") d)
  end.

(** The tenant hint of a context token, case by case. *)
Inductive tenant_hint : option str -> pyvalue -> Prop :=
| hint_no_token (tok : option str) :
    tok = None \/ tok = Some [] ->
    tenant_hint tok PNone
| hint_no_second_segment (t : str) :
    t <> [] ->
    (length (split 46 t) < 2)%nat ->
    tenant_hint (Some t) PNone
| hint_invalid_base64 (t segment : str) (e : exn) :
    t <> [] ->
    nth_error (split 46 t) 1 = Some segment ->
    urlsafe_b64decode (padded segment) = Raise e ->
    tenant_hint (Some t) PNone
| hint_invalid_json (t segment : str) (raw : bytes) (e : exn) :
    t <> [] ->
    nth_error (split 46 t) 1 = Some segment ->
    urlsafe_b64decode (padded segment) = Ret raw ->
    json_loads raw = Raise e ->
    tenant_hint (Some t) PNone
| hint_not_an_object (t segment : str) (raw : bytes) (v : pyvalue) :
    t <> [] ->
    nth_error (split 46 t) 1 = Some segment ->
    urlsafe_b64decode (padded segment) = Ret raw ->
    json_loads raw = Ret v ->
    (forall d, v <> PDict d) ->
    tenant_hint (Some t) PNone
| hint_claim (t segment : str) (raw : bytes) (d : list (str * pyvalue)) :
    t <> [] ->
    nth_error (split 46 t) 1 = Some segment ->
    urlsafe_b64decode (padded segment) = Ret raw ->
    json_loads raw = Ret (PDict d) ->
    tenant_hint (Some t) (claim_of d).

Definition is_ok {A} (o : outcome A) : bool :=
  match o with
  | Ret _ => true
  | Raise _ => false
  end.

(** The name of header [h] is [name], compared without regard to case. *)
Definition header_named (name : str) (h : bytes * bytes) : bool :=
  match decode (fst h) with
  | Ret n => str_eqb (lower unicode_lower n) name
  | Raise _ => false
  end.

(** [h] is the header injected by the platform. *)
Definition is_easyauth (h : bytes * bytes) : bool :=
  header_named (text "x-ms-token-aad-access-token") h.

(** [h] is an [Authorization] header. *)
Definition is_authorization (h : bytes * bytes) : bool :=
  header_named (text "authorization") h.

(** [h] is an [Authorization] header whose value starts with the scheme
    [Bearer] and a space, in any case. *)
Definition is_bearer (h : bytes * bytes) : bool :=
  is_authorization h &&
  match decode (snd h) with
  | Ret v => startswith (lower unicode_lower v) (text "bearer ")
  | Raise _ => false
  end.

(** The name of [h] is valid UTF-8, and so is its value if the middleware
    reads it. *)
Definition header_decodable (h : bytes * bytes) : bool :=
  is_ok (decode (fst h)) &&
  (if is_easyauth h || is_authorization h then is_ok (decode (snd h))
   else true).

Definition headers_decodable (hs : list (bytes * bytes)) : bool :=
  forallb header_decodable hs.

(** [h] is the last header of [hs] that satisfies [p]. *)
Definition last_such (p : bytes * bytes -> bool) (hs : list (bytes * bytes))
    (h : bytes * bytes) : Prop :=
  exists pre post,
    hs = pre ++ h :: post /\ p h = true /\ forallb (fun x => negb (p x)) post = true.

(** No header of [hs] satisfies [p]. *)
Definition none_such (p : bytes * bytes -> bool) (hs : list (bytes * bytes))
  : Prop :=
  forallb (fun x => negb (p x)) hs = true.

(** The platform header carries no usable token: there is none, or the
    last one has an empty value. *)
Definition no_easyauth_token (hs : list (bytes * bytes)) : Prop :=
  none_such is_easyauth hs \/
  exists h, last_such is_easyauth hs h /\ decode (snd h) = Ret [].

(** The precedence of the platform header as the specification words it:
    when the header is present, its value is what is extracted. *)
Definition easyauth_precedence_as_stated (scope : asgi_scope) : Prop :=
  forall h v,
    last_such is_easyauth (default [] (scope_headers scope)) h ->
    decode (snd h) = Ret v ->
    OBOMiddleware._extract_token scope = Ret (Some v).

(** The middleware on a request as the specification words it: on every
    scope of type [http] the token is set to some extracted value and the
    next application then runs. *)
Definition sets_token_before_next_as_stated {Receive Send : Type}
    (self : OBOMiddleware.t (Receive := Receive) (Send := Send))
    (scope : asgi_scope) (receive : Receive) (send : Send)
    (s : module_state) : Prop :=
  scope_type scope = Some (text "http") ->
  exists tok : option str,
    OBOMiddleware.__call__ self scope receive send s
    = OBOMiddleware.app self scope receive send (snd (set_user_token tok s)).

End vocabulary.

(** ** Sample requests and schedules *)

(** A request with the platform header, empty, and a bearer token. *)
Definition request_empty_easyauth : asgi_scope :=
  {| scope_type := Some (text "http");
     scope_headers :=
       Some [ (blit "x-ms-token-aad-access-token", []);
              (blit "authorization", blit "Bearer T2") ] |}.

(** A request with both headers, as a server hands them over. *)
Definition request_both : asgi_scope :=
  {| scope_type := Some (text "http");
     scope_headers :=
       Some [ (blit "host", blit "example.org");
              (blit "authorization", blit "bearer  T2 ");
              (blit "x-ms-token-aad-access-token", blit "T1") ] |}.

(** A request whose [Authorization] value is not valid UTF-8. *)
Definition request_undecodable : asgi_scope :=
  {| scope_type := Some (text "http");
     scope_headers := Some [ (blit "authorization", [xff]) ] |}.

(** A lifespan event. *)
Definition lifespan_event : asgi_scope :=
  {| scope_type := Some (text "lifespan"); scope_headers := None |}.

(** A system at start: the stub provider, configured, and no task yet. *)
Definition system_at_start : system (H := PyRef.identity) :=
  {| shared := Example.configured None; contexts := ∅ |}.

(** What runs between the two sets of the sample schedule: a third task is
    created and the second task reads its own token. *)
Definition sample_between : list (event (H := PyRef.identity)) :=
  [ Create 0 3; Step 2 (option str) get_user_token ].

(** What runs after them: the third task sets a token of its own. *)
Definition sample_after : list (event (H := PyRef.identity)) :=
  [ Step 3 unit (set_user_token (Some (text "tc"))) ].

(** A request with a lower-case bearer scheme only. *)
Definition request_bearer_only : asgi_scope :=
  {| scope_type := Some (text "http");
     scope_headers := Some [ (blit "authorization", blit "bearer T2") ] |}.

(** A request without credentials. *)
Definition request_anonymous : asgi_scope :=
  {| scope_type := Some (text "http");
     scope_headers := Some [ (blit "host", blit "example.org") ] |}.

(** A request carrying a three-segment token whose payload is the object
    with [tid] set to [tenant1]. *)
Definition request_with_jwt : asgi_scope :=
  {| scope_type := Some (text "http");
     scope_headers :=
       Some [ (blit "authorization",
               blit "Bearer abc.eyJ0aWQiOiJ0ZW5hbnQxIn0.sig") ] |}.

(** A next application that does nothing. *)
Definition idle_app : OBOMiddleware.t (H0 := PyRef.identity) :=
  OBOMiddleware.__init__ (fun _ (_ _ : unit) => ret tt).

(** ** Vocabulary of the further properties *)

(** The record logged when an exchange fails. *)
Definition exchange_failed_record : log_record :=
  Warning (text "OBO token exchange failed").

(** The string holds no dot. *)
Definition no_dot (s : str) : Prop := Forall (fun c => c <> 46) s.

(** What follows the second segment of a token: nothing, or a dot and
    anything. *)
Definition segment_tail (s : str) : Prop := s = [] \/ exists r, s = 46 :: r.

Section further_vocabulary.
Context `{PyRuntime} `{AzureIdentity}.


(** The hint read from one payload segment. *)
Definition segment_hint (segment : str) : pyvalue :=
  match urlsafe_b64decode (padded segment) with
  | Ret raw =>
    match json_loads raw with
    | Ret (PDict d) => claim_of d
    | _ => PNone
    end
  | Raise _ => PNone
  end.

End further_vocabulary.

(** A request whose bearer scheme is in mixed case, after another
    [Authorization] header of another scheme. *)
Definition request_mixed_case : asgi_scope :=
  {| scope_type := Some (text "http");
     scope_headers :=
       Some [ (blit "Authorization", blit "Basic dXNlcjpwdw==");
              (blit "AUTHORIZATION", blit "BeArEr  T3 ");
              (blit "accept", [xff]) ] |}.

(** * Verified properties *)

(** ** Properties of the OBO exchanger *)

Section exchanger_properties.
Context `{PyRuntime} `{AzureIdentity}.

Lemma str_truthy_true (x : str) : str_truthy x = true <-> x <> [].
Proof. destruct x; simpl; split; intro; done. Qed.

Lemma environ_get_truthy (env : environ) (name : string) :
  environ_get env name <> [] <-> setting_present env name.
Proof.
  unfold environ_get, setting_present. destruct (env !! name) as [v|]; simpl.
  - split; [eauto | intros (w & Hw & Hne); congruence].
  - split; [intros Hne; exfalso; apply Hne; reflexivity
           | intros (w & Hw & _); discriminate].
Qed.

Lemma is_obo_configured_eq (s : module_state) :
  is_obo_configured s =
  (Ret (str_truthy (OBO_CLIENT_ID s) && str_truthy (OBO_CLIENT_SECRET s)
        && str_truthy (OBO_TENANT_ID s)), s).
Proof.
  unfold is_obo_configured, bind, gets, ret.
  destruct (str_truthy (OBO_CLIENT_ID s)); simpl; [|reflexivity].
  destruct (str_truthy (OBO_CLIENT_SECRET s)); reflexivity.
Qed.

(** C5.  [is_obo_configured] returns [True] exactly when the client
    identifier, the client secret and the default tenant are all non-empty,
    and it leaves the state as it found it; for the module as imported, that
    is exactly when each of the three environment variables is set to a
    non-empty string (an unset variable reads as the empty string). *)
Theorem is_obo_configured_iff_all_three :
  (forall s : module_state,
     exists b, is_obo_configured s = (Ret b, s) /\
       (b = true <->
        OBO_CLIENT_ID s <> [] /\ OBO_CLIENT_SECRET s <> [] /\
        OBO_TENANT_ID s <> [])) /\
  (forall (env : environ) (provider : idp_state),
     exists b,
       is_obo_configured (module_init env provider) =
         (Ret b, module_init env provider) /\
       (b = true <-> Forall (setting_present env) obo_settings)).
Proof.
  split.
  - intros s. eexists. split; [apply is_obo_configured_eq|].
    rewrite !andb_true_iff, !str_truthy_true. tauto.
  - intros env provider. eexists. split; [apply is_obo_configured_eq|].
    rewrite !andb_true_iff, !str_truthy_true. unfold obo_settings.
    rewrite !Forall_cons, Forall_nil. simpl.
    rewrite !environ_get_truthy. tauto.
Qed.

(** C2.  Whatever the configuration, when the context holds no token
    [get_obo_headers] returns [None] without raising and leaves the whole
    state, the provider and the journal of calls to it included, as it was:
    no exchange is attempted. *)
Theorem get_obo_headers_absent_token (tenant_id : option str)
    (s : module_state) :
  fst (get_user_token s) = Ret None ->
  get_obo_headers tenant_id s = (Ret None, s).
Proof.
  unfold get_obo_headers, get_user_token, bind, gets, ret. simpl.
  intros Htok. injection Htok as ->. reflexivity.
Qed.

(** C10.  When the context holds the empty string, [get_obo_headers]
    behaves as for an absent token, fully configured or not: it returns
    [None] and the state, the journal of provider calls included, is
    unchanged. *)
Theorem get_obo_headers_empty_token (tenant_id : option str)
    (s : module_state) :
  fst (get_user_token s) = Ret (Some empty_str) ->
  get_obo_headers tenant_id s = (Ret None, s).
Proof.
  unfold get_obo_headers, get_user_token, bind, gets, ret. simpl.
  intros Htok. injection Htok as ->. reflexivity.
Qed.

(** C3.  With delegation configured and a token in the context, if the
    exchange dependency raises, in the constructor of the credential or in
    [get_token], for the tenant the call selects, then [get_obo_headers]
    returns [None]: nothing is raised to the caller. *)
Theorem get_obo_headers_exchange_raises (tenant_id : option str)
    (tok : str) (s : module_state) :
  fst (is_obo_configured s) = Ret true ->
  fst (get_user_token s) = Ret (Some tok) ->
  exchange_raises (or_default tenant_id (OBO_TENANT_ID s)) (OBO_CLIENT_ID s)
                  (OBO_CLIENT_SECRET s) tok (idp s) ->
  fst (get_obo_headers tenant_id s) = Ret None.
Proof.
  intros Hconf Htok Hraise.
  unfold get_obo_headers, bind. unfold get_user_token, bind, gets, ret in *.
  simpl in Htok. injection Htok as ->.
  destruct (str_truthy tok); [|reflexivity].
  rewrite is_obo_configured_eq in *. simpl in Hconf. injection Hconf as ->.
  unfold _exchange_obo, try_except, bind, gets, ret, new_OnBehalfOfCredential,
    cred_get_token, call_idp, logger_warning. simpl.
  destruct Hraise as [(e & p & He) | (cred & p & e & p' & Hc & Hg)].
  - rewrite He. reflexivity.
  - rewrite Hc. simpl. rewrite Hg. reflexivity.
Qed.

End exchanger_properties.

Lemma get_obo_headers_absent_token_witness :
  get_obo_headers (Some (text "tenant2")) (Example.configured (Some None))
  = (Ret None, Example.configured (Some None)) /\
  get_obo_headers None (Example.unconfigured None)
  = (Ret None, Example.unconfigured None).
Proof. split; apply get_obo_headers_absent_token; reflexivity. Defined.

Lemma get_obo_headers_empty_token_witness :
  fst (is_obo_configured (Example.configured (Some (Some empty_str)))) = Ret true /\
  get_obo_headers None (Example.configured (Some (Some empty_str)))
  = (Ret None, Example.configured (Some (Some empty_str))).
Proof.
  split; [reflexivity|].
  apply get_obo_headers_empty_token. reflexivity.
Defined.

Lemma get_obo_headers_exchange_raises_witness :
  fst (get_obo_headers (Some (text "unknown"))
         (Example.configured (Some (Some (text "user-token")))))
  = Ret None.
Proof.
  apply (get_obo_headers_exchange_raises (Some (text "unknown"))
           (text "user-token")).
  - reflexivity.
  - reflexivity.
  - right. exists (text "unknown"), 1%nat,
      (OtherException "ClientAuthenticationError"), 2%nat.
    split; reflexivity.
Defined.

Section exchanger_success.
Context `{AzureIdentity}.

Lemma or_default_selected (tenant_id : option str) (default_tenant : str) :
  or_default tenant_id default_tenant = selected_tenant tenant_id default_tenant.
Proof. destruct tenant_id as [[|c t]|]; reflexivity. Qed.

(** C4, as amended.  With delegation configured and a non-empty token in
    the context, if the exchange dependency issues a token for the selected
    tenant (the override when one is provided and non-empty, the configured
    default otherwise), the client identifier and secret of the
    configuration, the context token as assertion and the scope
    [ARM_SCOPE], then [get_obo_headers] returns exactly the two headers
    [Authorization: Bearer <issued>] and [Content-Type: application/json],
    and the journal shows exactly these two calls. *)
Theorem get_obo_headers_success (tenant_id : option str) (tok : str)
    (s : module_state) (issued : AccessToken) (p' : idp_state) :
  fst (is_obo_configured s) = Ret true ->
  fst (get_user_token s) = Ret (Some tok) ->
  tok <> [] ->
  exchange_issues (selected_tenant tenant_id (OBO_TENANT_ID s))
    (OBO_CLIENT_ID s) (OBO_CLIENT_SECRET s) tok (idp s) issued p' ->
  get_obo_headers tenant_id s =
  (Ret (Some [ (text "Authorization", text "Bearer " ++ token issued);
               (text "Content-Type", text "application/json") ]),
   after_exchange s (selected_tenant tenant_id (OBO_TENANT_ID s)) tok p').
Proof.
  intros Hconf Htok Hne (cred & p & Hc & Hg).
  rewrite <- or_default_selected in *.
  unfold get_obo_headers, bind. unfold get_user_token, bind, gets, ret in *.
  simpl in Htok. injection Htok as ->.
  destruct tok as [|c tok']; [congruence|]. cbn beta iota delta [str_truthy].
  rewrite is_obo_configured_eq in *. simpl in Hconf. injection Hconf as ->.
  unfold _exchange_obo, try_except, bind, gets, ret, new_OnBehalfOfCredential,
    cred_get_token, call_idp. simpl.
  rewrite Hc. simpl. rewrite Hg. simpl.
  unfold after_exchange, arm_headers. rewrite <- app_assoc. reflexivity.
Qed.

(** C9.  For every token and tenant, [check_obo_tenant_auth] returns a
    boolean and never raises: [True] exactly when the exchange dependency
    issues a token for that tenant, [False] when it raises; the binding of
    the context variable and the three configuration values are the same
    after the call as before, and nothing is logged. *)
Theorem check_obo_tenant_auth_frame (tok tenant : str) (s : module_state) :
  exists (b : bool) (s' : module_state),
    check_obo_tenant_auth tok tenant s = (Ret b, s') /\
    (b = true <->
     exists issued p',
       exchange_issues tenant (OBO_CLIENT_ID s) (OBO_CLIENT_SECRET s) tok
                       (idp s) issued p') /\
    (b = false <->
     exchange_raises tenant (OBO_CLIENT_ID s) (OBO_CLIENT_SECRET s) tok
                     (idp s)) /\
    _user_bearer_token s' = _user_bearer_token s /\
    OBO_CLIENT_ID s' = OBO_CLIENT_ID s /\
    OBO_CLIENT_SECRET s' = OBO_CLIENT_SECRET s /\
    OBO_TENANT_ID s' = OBO_TENANT_ID s /\
    log_records s' = log_records s.
Proof.
  unfold check_obo_tenant_auth, try_except, bind, gets, ret,
    new_OnBehalfOfCredential, cred_get_token, call_idp,
    exchange_issues, exchange_raises. simpl.
  destruct (OnBehalfOfCredential tenant (OBO_CLIENT_ID s)
              (OBO_CLIENT_SECRET s) tok (idp s)) as [[cred|e] p] eqn:Hc; simpl.
  - destruct (get_token cred ARM_SCOPE p) as [[issued|e] p'] eqn:Hg; simpl.
    + exists true. eexists. split; [reflexivity|].
      split; [split; [intros _; eauto 10 | reflexivity]|].
      split; [|repeat split].
      split; [discriminate|].
      intros [(e & q & He) | (c & q & e & q' & Hc' & Hg')]; [discriminate|].
      injection Hc' as -> ->. rewrite Hg in Hg'. discriminate.
    + exists false. eexists. split; [reflexivity|].
      split; [|split; [|repeat split]].
      * split; [discriminate|].
        intros (i & q' & c & q & Hc' & Hg').
        injection Hc' as -> ->. rewrite Hg in Hg'. discriminate.
      * split; [intros _; right; eauto 10 | reflexivity].
  - exists false. eexists. split; [reflexivity|].
    split; [|split; [|repeat split]].
    + split; [discriminate|].
      intros (i & q' & c & q & Hc' & Hg'). discriminate.
    + split; [intros _; left; eauto | reflexivity].
Qed.

End exchanger_success.

(** C4: the claim as stated fails when the override is the empty string
    (the exchange goes to the default tenant) and when the context token is
    the empty string (no exchange is made). *)
Lemma success_postcondition_counterexample :
  ~ success_postcondition_as_stated (Some empty_str) (text "user-token")
      (Example.configured (Some (Some (text "user-token")))) /\
  ~ success_postcondition_as_stated None empty_str
      (Example.configured (Some (Some empty_str))).
Proof.
  split; intros Hc.
  - specialize (Hc eq_refl eq_refl {| token := text "issued-" |} 2%nat).
    assert (Hx : fst (get_obo_headers (Some empty_str)
                        (Example.configured (Some (Some (text "user-token")))))
                 = Ret (Some [ (text "Authorization", text "Bearer issued-");
                               (text "Content-Type", text "application/json") ])).
    { rewrite Hc; [reflexivity|]. exists empty_str, 1%nat. split; reflexivity. }
    vm_compute in Hx. discriminate Hx.
  - specialize (Hc eq_refl eq_refl {| token := text "issued-xyz" |} 2%nat).
    assert (Hx : fst (get_obo_headers None
                        (Example.configured (Some (Some empty_str))))
                 <> Ret None).
    { rewrite Hc; [discriminate|]. exists (text "tenant1"), 1%nat.
      split; reflexivity. }
    apply Hx. reflexivity.
Qed.

Lemma get_obo_headers_success_witness :
  get_obo_headers (Some (text "tenant2"))
    (Example.configured (Some (Some (text "user-token"))))
  = (Ret (Some [ (text "Authorization", text "Bearer issued-tenant2");
                 (text "Content-Type", text "application/json") ]),
     after_exchange (Example.configured (Some (Some (text "user-token"))))
       (text "tenant2") (text "user-token") 2%nat).
Proof.
  apply (get_obo_headers_success (Some (text "tenant2")) (text "user-token")
           (Example.configured (Some (Some (text "user-token"))))
           {| token := text "issued-tenant2" |} 2%nat).
  - reflexivity.
  - reflexivity.
  - discriminate.
  - exists (text "tenant2"), 1%nat. split; reflexivity.
Defined.

(** ** Properties of the claim extractor *)

Section claim_extractor.
Context `{PyRuntime} `{AzureIdentity}.

Lemma neg_mod4_padding (n : nat) : neg_mod4 n = padding_length n.
Proof.
  unfold neg_mod4, padding_length.
  apply Nat2Z.inj. rewrite Z2Nat.id by (apply Z.mod_pos_bound; lia).
  rewrite !Nat2Z.inj_mod, Nat2Z.inj_sub by (pose proof (Nat.mod_upper_bound n 4); lia).
  rewrite Nat2Z.inj_mod. change (Z.of_nat 4) with 4%Z.
  pose proof (Z.mod_pos_bound (Z.of_nat n) 4 ltac:(lia)) as Hb.
  rewrite (Z.div_mod (Z.of_nat n) 4) at 1 by lia.
  replace (- (4 * (Z.of_nat n / 4) + Z.of_nat n mod 4))%Z
    with ((4 - Z.of_nat n mod 4) + (- (Z.of_nat n / 4) - 1) * 4)%Z by lia.
  apply Z.mod_add. lia.
Qed.

(** The padded segment has a length that is a multiple of four, with fewer
    than four [=] added. *)
Lemma padded_length (segment : str) :
  (length (padded segment) mod 4 = 0 /\
   padding_length (length segment) < 4)%nat.
Proof.
  unfold padded, padding_length.
  rewrite length_app, repeat_length.
  pose proof (Nat.mod_upper_bound (length segment) 4 ltac:(lia)) as Hb.
  pose proof (Nat.div_mod_eq (length segment) 4) as Hd.
  split; [|apply Nat.mod_upper_bound; lia].
  destruct (Nat.eq_dec (length segment mod 4)%nat 0%nat) as [Hz|Hz].
  - rewrite Hz. change ((4 - 0) mod 4)%nat with 0%nat.
    rewrite Nat.add_0_r. exact Hz.
  - rewrite (Nat.mod_small (4 - length segment mod 4)%nat 4%nat) by lia.
    replace (length segment + (4 - length segment mod 4))%nat
      with ((1 + length segment / 4) * 4)%nat by lia.
    apply Nat.Div0.mod_mul.
Qed.

Lemma get_claim_of (d : list (str * pyvalue)) :
  obind (get (PDict d) (text "tid"))
        (fun a => if truthy a then Ret a else get (PDict d) (text "tenant_id"))
  = Ret (claim_of d).
Proof.
  unfold claim_of, get. simpl.
  destruct (dict_lookup (text "tid") d) as [v|]; simpl.
  - destruct (truthy v); reflexivity.
  - reflexivity.
Qed.

(** C6, as amended.  [get_user_tenant_id] never raises and leaves the state
    as it was.  It splits the context token on dots, takes the second
    segment whatever the number of segments, restores the base64 padding,
    hands it to the URL-safe base64 decoder and the result to the JSON
    parser; of a JSON object it returns [tid] when that claim is present and
    true in a boolean context, otherwise [tenant_id] when present, otherwise
    [None].  It returns [None] when the token is absent or empty, when it
    has no second segment, when the decoder raises, when the parser raises,
    and when the parsed value is not an object.  Input that the decoder or
    the parser accepts without raising is not rejected, valid or not. *)
Theorem get_user_tenant_id_hint (s : module_state) :
  exists (tok : option str) (v : pyvalue),
    get_user_token s = (Ret tok, s) /\
    get_user_tenant_id s = (Ret v, s) /\
    tenant_hint tok v.
Proof.
  exists (ContextVar_get (_user_bearer_token s)).
  unfold get_user_tenant_id, get_user_token, bind, gets, ret. simpl.
  destruct (ContextVar_get (_user_bearer_token s)) as [t|].
  2:{ exists PNone. repeat split. apply hint_no_token. auto. }
  destruct t as [|c t'] eqn:Ht.
  { exists PNone. repeat split. apply hint_no_token. auto. }
  rewrite <- Ht. assert (Hne : t <> []) by (subst t; discriminate).
  replace (str_truthy t) with true by (subst t; reflexivity).
  clear Ht c t'.
  unfold try_except, lift, bind, ret, index.
  destruct (nth_error (split 46 t) 1) as [segment|] eqn:Hseg.
  2:{ exists PNone. repeat split. apply hint_no_second_segment; [exact Hne|].
      apply nth_error_None in Hseg. lia. }
  rewrite neg_mod4_padding. unfold repeat_char. fold (padded segment).
  destruct (urlsafe_b64decode (padded segment)) as [raw|e] eqn:Hb64.
  2:{ exists PNone. repeat split. eapply hint_invalid_base64; eauto. }
  destruct (json_loads raw) as [claims|e] eqn:Hjson.
  2:{ exists PNone. repeat split. eapply hint_invalid_json; eauto. }
  destruct claims as [ | | | | | | | |d];
    try (exists PNone; repeat split;
         eapply hint_not_an_object; eauto; intros d; discriminate).
  rewrite get_claim_of.
  exists (claim_of d). repeat split. eapply hint_claim; eauto.
Qed.

End claim_extractor.

(** C6: the claim as stated fails on a token of two segments, which the
    code decodes although the segment count is wrong; on a payload whose
    [tid] is the empty string, where the code returns [tenant_id]; on a
    segment with a character outside the base64 alphabet, which the decoder
    skips instead of raising; and on a payload whose [tid] is [NaN], which
    the parser accepts although it is not JSON.  The payloads are the
    objects with [tid] set to [a]; with [tid] empty and [tenant_id] set to
    [xyz]; with [tid] set to [ab]; and with [tid] set to [NaN]. *)
Lemma extractTenantHint_counterexample :
  (let tok := text "header.eyJ0aWQiOiJhIn0" in
   fst (get_user_tenant_id (H := PyRef.runtime)
          (Example.configured (Some (Some tok))))
   = Ret (PStr (text "a")) /\
   extractTenantHint_as_stated (H := PyRef.runtime) tok = PNone) /\
  (let tok := text "header.eyJ0aWQiOiIiLCJ0ZW5hbnRfaWQiOiJ4eXoifQ.sig" in
   fst (get_user_tenant_id (H := PyRef.runtime)
          (Example.configured (Some (Some tok))))
   = Ret (PStr (text "xyz")) /\
   extractTenantHint_as_stated (H := PyRef.runtime) tok = PStr empty_str) /\
  (let tok := text "h.eyJ0aWQi!OiJhYiJ9.s" in
   fst (get_user_tenant_id (H := PyRef.runtime)
          (Example.configured (Some (Some tok))))
   = Ret (PStr (text "ab")) /\
   extractTenantHint_as_stated (H := PyRef.runtime) tok = PNone) /\
  (let tok := text "h.eyJ0aWQiOk5hTn0.s" in
   fst (get_user_tenant_id (H := PyRef.runtime)
          (Example.configured (Some (Some tok))))
   = Ret PNaN /\
   extractTenantHint_as_stated (H := PyRef.runtime) tok = PNone).
Proof. repeat split; vm_compute; reflexivity. Qed.

(** ** Properties of the middleware *)

Section extraction.
Context `{PyRuntime}.
Import OBOMiddleware.

Lemma easyauth_not_authorization (h : bytes * bytes) :
  is_easyauth h = true -> is_authorization h = false.
Proof.
  unfold is_easyauth, is_authorization, header_named.
  destruct (decode h.1) as [n|]; [|discriminate].
  unfold str_eqb. intros Heq%bool_decide_eq_true.
  apply bool_decide_eq_false. rewrite Heq. vm_compute. discriminate.
Qed.

Lemma header_step_easyauth (vars : option str * option str)
    (h : bytes * bytes) (v : str) :
  is_easyauth h = true -> decode h.2 = Ret v ->
  header_step vars h = Ret (Some v, vars.2).
Proof.
  destruct vars as [e a], h as [name value]. simpl.
  unfold is_easyauth, header_named, header_step. simpl.
  destruct (decode name) as [n|]; [|discriminate]. simpl.
  intros -> ->. reflexivity.
Qed.

Lemma header_step_bearer (vars : option str * option str)
    (h : bytes * bytes) (v : str) :
  is_bearer h = true -> decode h.2 = Ret v ->
  header_step vars h = Ret (vars.1, Some (strip (slice_from 7 v))).
Proof.
  destruct vars as [e a], h as [name value]. simpl.
  unfold is_bearer. intros [Hauth Hstart]%andb_true_iff Hv.
  assert (Heasy : is_easyauth (name, value) = false).
  { destruct (is_easyauth (name, value)) eqn:E; [|reflexivity].
    apply easyauth_not_authorization in E. congruence. }
  revert Hauth Hstart Heasy.
  unfold is_easyauth, is_authorization, header_named, header_step. simpl.
  destruct (decode name) as [n|]; [|discriminate]. simpl.
  rewrite Hv. simpl. intros -> -> ->. reflexivity.
Qed.

Lemma header_step_not_easyauth (vars : option str * option str)
    (h : bytes * bytes) :
  is_easyauth h = false -> header_decodable h = true ->
  exists a, header_step vars h = Ret (vars.1, a).
Proof.
  destruct vars as [e a], h as [name value].
  unfold header_decodable, is_easyauth, is_authorization, header_named,
    header_step. simpl.
  destruct (decode name) as [n|]; [|discriminate]. simpl.
  intros ->. simpl.
  destruct (str_eqb (lower unicode_lower n) (text "authorization")).
  - destruct (decode value) as [v|]; [|discriminate]. simpl. intros _.
    destruct (startswith _ _); eauto.
  - eauto.
Qed.

Lemma header_step_not_bearer (vars : option str * option str)
    (h : bytes * bytes) :
  is_bearer h = false -> header_decodable h = true ->
  exists e, header_step vars h = Ret (e, vars.2).
Proof.
  destruct vars as [e a], h as [name value].
  unfold header_decodable, is_bearer, is_easyauth, is_authorization,
    header_named, header_step. simpl.
  destruct (decode name) as [n|]; [|discriminate]. simpl.
  destruct (str_eqb (lower unicode_lower n)
              (text "x-ms-token-aad-access-token")).
  - simpl. destruct (decode value) as [v|]; [|discriminate]. simpl. eauto.
  - simpl. destruct (str_eqb (lower unicode_lower n) (text "authorization")).
    + simpl. destruct (decode value) as [v|]; [|discriminate]. simpl.
      intros ->. eauto.
    + eauto.
Qed.

Lemma for_headers_app (vars : option str * option str)
    (pre post : list (bytes * bytes)) :
  for_headers vars (pre ++ post)
  = obind (for_headers vars pre) (fun vars' => for_headers vars' post).
Proof.
  revert vars. induction pre as [|h pre IH]; intros vars; simpl.
  - reflexivity.
  - destruct (header_step vars h) as [vars'|e]; simpl; [apply IH|reflexivity].
Qed.

Lemma for_headers_total (hs : list (bytes * bytes)) :
  headers_decodable hs = true ->
  forall vars, exists vars', for_headers vars hs = Ret vars'.
Proof.
  induction hs as [|h hs IH]; simpl; intros Hd vars; [eauto|].
  apply andb_true_iff in Hd as [Hh Hhs].
  destruct (is_easyauth h) eqn:E.
  - unfold header_decodable in Hh. rewrite E in Hh. simpl in Hh.
    apply andb_true_iff in Hh as [_ Hv].
    destruct (decode h.2) as [v|] eqn:Hdv; [|discriminate].
    rewrite (header_step_easyauth vars h v E Hdv). simpl. apply IH, Hhs.
  - destruct (header_step_not_easyauth vars h E Hh) as [a ->]. simpl.
    apply IH, Hhs.
Qed.

Lemma for_headers_no_easyauth (hs : list (bytes * bytes)) :
  headers_decodable hs = true -> none_such is_easyauth hs ->
  forall vars, exists a, for_headers vars hs = Ret (vars.1, a).
Proof.
  unfold none_such.
  induction hs as [|h hs IH]; simpl; intros Hd Hn vars.
  - exists vars.2. destruct vars; reflexivity.
  - apply andb_true_iff in Hd as [Hh Hhs].
    apply andb_true_iff in Hn as [Hnh Hnhs].
    apply negb_true_iff in Hnh.
    destruct (header_step_not_easyauth vars h Hnh Hh) as [a ->]. simpl.
    apply (IH Hhs Hnhs (vars.1, a)).
Qed.

Lemma for_headers_no_bearer (hs : list (bytes * bytes)) :
  headers_decodable hs = true -> none_such is_bearer hs ->
  forall vars, exists e, for_headers vars hs = Ret (e, vars.2).
Proof.
  unfold none_such.
  induction hs as [|h hs IH]; simpl; intros Hd Hn vars.
  - exists vars.1. destruct vars; reflexivity.
  - apply andb_true_iff in Hd as [Hh Hhs].
    apply andb_true_iff in Hn as [Hnh Hnhs].
    apply negb_true_iff in Hnh.
    destruct (header_step_not_bearer vars h Hnh Hh) as [e ->]. simpl.
    apply (IH Hhs Hnhs (e, vars.2)).
Qed.

Lemma headers_decodable_app (pre post : list (bytes * bytes)) :
  headers_decodable (pre ++ post) = true ->
  headers_decodable pre = true /\ headers_decodable post = true.
Proof.
  unfold headers_decodable. rewrite forallb_app. apply andb_true_iff.
Qed.

(** The loop leaves in [easyauth_token] the value of the last platform
    header. *)
Lemma for_headers_last_easyauth (hs : list (bytes * bytes))
    (h : bytes * bytes) (v : str) :
  headers_decodable hs = true ->
  last_such is_easyauth hs h -> decode h.2 = Ret v ->
  exists a, for_headers (None, None) hs = Ret (Some v, a).
Proof.
  intros Hd (pre & post & -> & Hp & Hpost) Hv.
  apply headers_decodable_app in Hd as [Hpre Hrest].
  simpl in Hrest. apply andb_true_iff in Hrest as [_ Hdpost].
  rewrite for_headers_app.
  destruct (for_headers_total pre Hpre (None, None)) as [vars ->]. simpl.
  rewrite (header_step_easyauth vars h v Hp Hv). simpl.
  apply (for_headers_no_easyauth post Hdpost Hpost (Some v, vars.2)).
Qed.

(** The loop leaves in [auth_token] the trimmed remainder of the last
    bearer header. *)
Lemma for_headers_last_bearer (hs : list (bytes * bytes))
    (h : bytes * bytes) (v : str) :
  headers_decodable hs = true ->
  last_such is_bearer hs h -> decode h.2 = Ret v ->
  exists e, for_headers (None, None) hs
            = Ret (e, Some (strip (slice_from 7 v))).
Proof.
  intros Hd (pre & post & -> & Hp & Hpost) Hv.
  apply headers_decodable_app in Hd as [Hpre Hrest].
  simpl in Hrest. apply andb_true_iff in Hrest as [_ Hdpost].
  rewrite for_headers_app.
  destruct (for_headers_total pre Hpre (None, None)) as [vars ->]. simpl.
  rewrite (header_step_bearer vars h v Hp Hv). simpl.
  apply (for_headers_no_bearer post Hdpost Hpost
           (vars.1, Some (strip (slice_from 7 v)))).
Qed.

(** Without a usable platform token, [easyauth_token] is false in a boolean
    context when the loop ends. *)
Lemma for_headers_no_easyauth_token (hs : list (bytes * bytes)) :
  headers_decodable hs = true -> no_easyauth_token hs ->
  exists e a, for_headers (None, None) hs = Ret (e, a) /\ opt_truthy e = false.
Proof.
  intros Hd [Hnone | (h & Hlast & Hv)].
  - destruct (for_headers_no_easyauth hs Hd Hnone (None, None)) as [a Ha].
    exists None, a. split; [exact Ha | reflexivity].
  - destruct (for_headers_last_easyauth hs h [] Hd Hlast Hv) as [a Ha].
    exists (Some []), a. split; [exact Ha | reflexivity].
Qed.

(** C7, as amended.  On headers whose names, and whose values where the
    middleware reads them, are valid UTF-8, [_extract_token] returns without
    raising, and: if the platform header is present and the value of its
    last occurrence is not empty, that value is returned whatever the
    [Authorization] headers; otherwise (no platform header, or an empty
    one), if an [Authorization] header with the scheme [Bearer] in any case
    is present, what follows the seven characters of the scheme in the last
    such header, trimmed of white space, is returned; otherwise [None]. *)
Theorem extract_token_precedence (scope : asgi_scope) :
  let hs := default [] (scope_headers scope) in
  headers_decodable hs = true ->
  exists r : option str,
    _extract_token scope = Ret r /\
    (forall h v, last_such is_easyauth hs h -> decode h.2 = Ret v ->
                 v <> [] -> r = Some v) /\
    (forall h v, no_easyauth_token hs -> last_such is_bearer hs h ->
                 decode h.2 = Ret v ->
                 r = Some (strip (slice_from 7 v))) /\
    (no_easyauth_token hs -> none_such is_bearer hs -> r = None).
Proof.
  intros hs Hd. unfold _extract_token. fold hs.
  destruct (for_headers_total hs Hd (None, None)) as [[e a] Hrun].
  rewrite Hrun. simpl. eexists. split; [reflexivity|].
  split; [|split].
  - intros h v Hlast Hv Hne.
    destruct (for_headers_last_easyauth hs h v Hd Hlast Hv) as [a' Ha'].
    rewrite Hrun in Ha'. injection Ha' as -> ->.
    unfold opt_or. destruct v; [congruence|reflexivity].
  - intros h v Hno Hlast Hv.
    destruct (for_headers_no_easyauth_token hs Hd Hno) as (e' & a' & Ha' & He').
    rewrite Hrun in Ha'. injection Ha' as <- <-.
    destruct (for_headers_last_bearer hs h v Hd Hlast Hv) as [e'' He''].
    rewrite Hrun in He''. injection He'' as _ ->.
    unfold opt_or. rewrite He'. reflexivity.
  - intros Hno Hnone.
    destruct (for_headers_no_easyauth_token hs Hd Hno) as (e' & a' & Ha' & He').
    rewrite Hrun in Ha'. injection Ha' as <- <-.
    destruct (for_headers_no_bearer hs Hd Hnone (None, None)) as [e'' He''].
    rewrite Hrun in He''. injection He'' as _ ->.
    unfold opt_or. rewrite He'. reflexivity.
Qed.

End extraction.

(** C7: the claim as stated fails on a request that carries the platform
    header with an empty value next to a bearer token: the bearer token is
    extracted, not the value of the platform header. *)
Lemma easyauth_precedence_counterexample :
  OBOMiddleware._extract_token (H := PyRef.runtime) request_empty_easyauth
    = Ret (Some (text "T2")) /\
  ~ easyauth_precedence_as_stated (H := PyRef.runtime) request_empty_easyauth.
Proof.
  split; [reflexivity|]. intros Hc.
  specialize (Hc (blit "x-ms-token-aad-access-token", []) []).
  assert (Hx : OBOMiddleware._extract_token (H := PyRef.runtime)
                 request_empty_easyauth = Ret (Some [])).
  { apply Hc; [|reflexivity].
    exists [], [(blit "authorization", blit "Bearer T2")].
    repeat split; reflexivity. }
  vm_compute in Hx. discriminate Hx.
Qed.

Lemma extract_token_precedence_witness :
  OBOMiddleware._extract_token (H := PyRef.runtime) request_both
  = Ret (Some (text "T1")).
Proof.
  destruct (extract_token_precedence (H := PyRef.runtime) request_both eq_refl)
    as (r & Hr & Heasy & _).
  rewrite Hr. f_equal.
  apply (Heasy (blit "x-ms-token-aad-access-token", blit "T1") (text "T1")).
  - exists [ (blit "host", blit "example.org");
             (blit "authorization", blit "bearer  T2 ") ], [].
    repeat split; reflexivity.
  - reflexivity.
  - discriminate.
Defined.

Section middleware_call.
Context `{PyRuntime} `{AzureIdentity} {Receive Send : Type}.
Import OBOMiddleware.

(** C8, as amended.  On a scope of type [http] whose header names, and
    whose header values where the middleware reads them, are valid UTF-8,
    [__call__] first sets the context token to what [_extract_token]
    returns, [None] included, and then runs the next application from the
    state so obtained, which differs from the incoming one in the binding of
    the context variable only.  On a scope of any other type the next
    application runs from the incoming state, untouched. *)
Theorem middleware_call_sets_token (self : t (Receive := Receive) (Send := Send))
    (scope : asgi_scope) (receive : Receive) (send : Send)
    (s : module_state) (ty : str) :
  scope_type scope = Some ty ->
  (ty = text "http" ->
   headers_decodable (default [] (scope_headers scope)) = true ->
   exists tok : option str,
     _extract_token scope = Ret tok /\
     __call__ self scope receive send s
       = app self scope receive send (snd (set_user_token tok s)) /\
     fst (get_user_token (snd (set_user_token tok s))) = Ret tok /\
     snd (set_user_token tok s) = with_binding (Some tok) s) /\
  (ty <> text "http" ->
     __call__ self scope receive send s = app self scope receive send s).
Proof.
  intros Hty. unfold __call__, bind, lift, scope_getitem_type.
  rewrite Hty. split.
  - intros -> Hd. unfold str_eqb.
    rewrite bool_decide_eq_true_2 by reflexivity.
    destruct (for_headers_total _ Hd (None, None)) as [[e a] Hrun].
    assert (Hext : _extract_token scope = Ret (opt_or e a)).
    { unfold _extract_token. rewrite Hrun. reflexivity. }
    exists (opt_or e a). rewrite Hext. repeat split.
  - intros Hne. unfold str_eqb. rewrite bool_decide_eq_false_2 by exact Hne.
    reflexivity.
Qed.

End middleware_call.

(** C8: the claim as stated fails on a request whose [Authorization] value
    is not valid UTF-8: decoding raises, the token of the context stays as
    it was and the next application does not run. *)
Lemma sets_token_before_next_counterexample :
  OBOMiddleware.__call__ (H := PyRef.runtime) idle_app request_undecodable
    tt tt (Example.configured (Some (Some (text "stale"))))
  = (Raise UnicodeDecodeError,
     Example.configured (Some (Some (text "stale")))) /\
  ~ sets_token_before_next_as_stated (H := PyRef.runtime) idle_app
      request_undecodable tt tt
      (Example.configured (Some (Some (text "stale")))).
Proof.
  split; [reflexivity|]. intros Hc.
  destruct (Hc eq_refl) as [tok Htok].
  apply (f_equal fst) in Htok. vm_compute in Htok. discriminate Htok.
Qed.

Lemma middleware_call_sets_token_witness :
  exists tok,
    OBOMiddleware._extract_token (H := PyRef.runtime) request_both = Ret tok /\
    OBOMiddleware.__call__ (H := PyRef.runtime) idle_app request_both tt tt
      (Example.configured None)
    = OBOMiddleware.app idle_app request_both tt tt
        (snd (set_user_token tok (Example.configured None))).
Proof.
  pose proof (middleware_call_sets_token (H := PyRef.runtime) idle_app
                request_both tt tt (Example.configured None)
                (text "http") eq_refl) as [Hhttp _].
  destruct (Hhttp eq_refl eq_refl) as (tok & Hext & Hcall & _).
  exists tok. split; [exact Hext | exact Hcall].
Defined.

(** ** Isolation of the request token *)

Section isolation.
Context `{AzureIdentity}.

Lemma run_in_other_context {A} (task other : nat) (m : M A) (sys : system) :
  task <> other ->
  contexts (snd (run_in task m sys)) !! other = contexts sys !! other.
Proof.
  intros Hne. unfold run_in.
  destruct (m (with_binding (context_of sys task) (shared sys))) as [r s'].
  simpl. apply lookup_insert_ne. exact Hne.
Qed.

Lemma create_task_keeps (parent child task : nat) (b : binding)
    (sys : system) :
  contexts sys !! task = Some b ->
  contexts (create_task parent child sys) !! task = Some b.
Proof.
  intros Hb. unfold create_task.
  destruct (contexts sys !! child) eqn:Hc; [exact Hb|]. simpl.
  rewrite lookup_insert_ne; [exact Hb|]. intros ->. congruence.
Qed.

(** The events of other tasks, task creation included, leave the context of
    a task that has one as it is. *)
Lemma exec_keeps (sched : list event) (task : nat) (b : binding) :
  Forall (not_step_of task) sched ->
  forall sys, contexts sys !! task = Some b ->
              contexts (exec sched sys) !! task = Some b.
Proof.
  unfold exec. induction 1 as [|ev sched Hev _ IH]; intros sys Hb; simpl.
  - exact Hb.
  - apply IH. destruct ev as [task' A m | parent child]; simpl in *.
    + rewrite run_in_other_context; [exact Hb | exact Hev].
    + apply create_task_keeps, Hb.
Qed.

Lemma run_in_set (task : nat) (v : option str) (sys : system) :
  contexts (snd (run_in task (set_user_token v) sys)) !! task = Some (Some v).
Proof. unfold run_in, set_user_token. simpl. apply lookup_insert_eq. Qed.

Lemma run_in_get (task : nat) (v : option str) (sys : system) :
  contexts sys !! task = Some (Some v) ->
  fst (run_in task get_user_token sys) = Ret v.
Proof.
  intros Hb. unfold run_in, context_of, get_user_token, bind, gets, ret.
  rewrite Hb. reflexivity.
Qed.

(** C1.  Task [A] sets its token to [ta]; later, or before (the initial
    system is arbitrary), task [B] sets its token to [tb]; around these,
    the scheduler interleaves any steps of other tasks and task creations,
    and between the two any steps of [B] as well.  Then a read in [A]
    returns [ta] and a read in [B] returns [tb]; and any step of [B] or of
    any task other than [A], a set included, leaves the context of [A]
    unchanged. *)
Theorem request_token_isolation (sys : system) (A B : nat)
    (ta tb : option str) (between after : list event) :
  A <> B ->
  Forall (not_step_of A) between ->
  Forall (not_step_of A) after ->
  Forall (not_step_of B) after ->
  let final :=
    exec after
      (snd (run_in B (set_user_token tb)
         (exec between
            (snd (run_in A (set_user_token ta) sys))))) in
  fst (run_in A get_user_token final) = Ret ta /\
  fst (run_in B get_user_token final) = Ret tb /\
  (forall (sys' : system) (task : nat) (X : Type) (m : M X),
     task <> A ->
     context_of (snd (run_in task m sys')) A = context_of sys' A).
Proof.
  intros Hne HbA HaA HaB final. subst final. split; [|split].
  - apply run_in_get. apply exec_keeps; [exact HaA|].
    rewrite run_in_other_context by congruence.
    apply exec_keeps; [exact HbA|]. apply run_in_set.
  - apply run_in_get. apply exec_keeps; [exact HaB|]. apply run_in_set.
  - intros sys' task X m Htask. unfold context_of.
    rewrite run_in_other_context by exact Htask. reflexivity.
Qed.

End isolation.

Lemma request_token_isolation_witness :
  let final :=
    exec sample_after
      (snd (run_in 2 (set_user_token (Some (text "tb")))
         (exec sample_between
            (snd (run_in 1 (set_user_token (Some (text "ta")))
                    system_at_start))))) in
  fst (run_in 1 get_user_token final) = Ret (Some (text "ta")) /\
  fst (run_in 2 get_user_token final) = Ret (Some (text "tb")).
Proof.
  intros final.
  destruct (request_token_isolation system_at_start 1 2
              (Some (text "ta")) (Some (text "tb"))
              sample_between sample_after) as (HA & HB & _).
  - lia.
  - unfold sample_between. repeat constructor. simpl. lia.
  - unfold sample_after. repeat constructor. simpl. lia.
  - unfold sample_after. repeat constructor. simpl. lia.
  - split; [exact HA | exact HB].
Defined.

(** ** The module at work on the scenarios of the specification *)

Section undecodable_headers.
Context `{PyRuntime}.
Import OBOMiddleware.

Lemma decode_raises (bs : bytes) (e : exn) :
  decode bs = Raise e -> e = UnicodeDecodeError.
Proof. unfold decode. destruct (utf8_decode bs); congruence. Qed.

Lemma header_step_undecodable (vars : option str * option str)
    (h : bytes * bytes) :
  header_decodable h = false -> header_step vars h = Raise UnicodeDecodeError.
Proof.
  destruct vars as [e a], h as [name value].
  unfold header_decodable, is_easyauth, is_authorization, header_named,
    header_step. simpl.
  destruct (decode name) as [n|x] eqn:Hn; simpl.
  - destruct (str_eqb (lower unicode_lower n)
                (text "x-ms-token-aad-access-token")); simpl.
    + destruct (decode value) as [v|x] eqn:Hv; [discriminate|].
      apply decode_raises in Hv as ->. reflexivity.
    + destruct (str_eqb (lower unicode_lower n) (text "authorization")).
      * destruct (decode value) as [v|x] eqn:Hv; [discriminate|].
        apply decode_raises in Hv as ->. reflexivity.
      * discriminate.
  - apply decode_raises in Hn as ->. reflexivity.
Qed.

(** A header that cannot be decoded makes [_extract_token] raise
    [UnicodeDecodeError]. *)
Lemma extract_token_undecodable (scope : asgi_scope) :
  headers_decodable (default [] (scope_headers scope)) = false ->
  _extract_token scope = Raise UnicodeDecodeError.
Proof.
  unfold _extract_token.
  generalize (default [] (scope_headers scope)) as hs.
  generalize (@None str, @None str) as vars.
  intros vars hs. revert vars.
  induction hs as [|h hs IH]; simpl; intros vars Hd; [discriminate|].
  destruct (header_decodable h) eqn:Hh; simpl in Hd.
  - destruct (for_headers_total [h] (H := H)) with (vars := vars)
      as [vars' Hstep].
    { simpl. rewrite Hh. reflexivity. }
    simpl in Hstep. destruct (header_step vars h) as [w|x]; [|discriminate].
    simpl. apply IH, Hd.
  - rewrite header_step_undecodable by exact Hh. reflexivity.
Qed.

End undecodable_headers.

(** The claim extractor on the tokens of the specification: no dot; a
    payload with [tid]; a payload with [tenant_id] only; a segment that is
    not base64. *)
Example tenant_hint_scenarios :
  let hint (tok : string) :=
    fst (get_user_tenant_id (H := PyRef.runtime)
           (Example.configured (Some (Some (text tok))))) in
  hint "x" = Ret PNone /\
  hint "h.eyJ0aWQiOiJhYmMtMTIzIn0.s" = Ret (PStr (text "abc-123")) /\
  hint "h.eyJ0ZW5hbnRfaWQiOiJ4eXoifQ.s" = Ret (PStr (text "xyz")) /\
  hint "h.abcde.s" = Ret PNone.
Proof. repeat split; vm_compute; reflexivity. Qed.

(** The middleware on the requests of the specification: both headers; a
    lower-case bearer scheme only; neither; and, beyond them, a value that
    is not UTF-8 and an event that is not a request. *)
Example middleware_scenarios :
  let call scope :=
    OBOMiddleware.__call__ (H := PyRef.runtime) idle_app scope tt tt
      (Example.configured (Some (Some (text "stale")))) in
  call request_both
    = (Ret tt, Example.configured (Some (Some (text "T1")))) /\
  call request_bearer_only
    = (Ret tt, Example.configured (Some (Some (text "T2")))) /\
  call request_anonymous
    = (Ret tt, Example.configured (Some None)) /\
  call request_undecodable
    = (Raise UnicodeDecodeError,
       Example.configured (Some (Some (text "stale")))) /\
  call lifespan_event
    = (Ret tt, Example.configured (Some (Some (text "stale")))).
Proof. repeat split; vm_compute; reflexivity. Qed.

(** End to end: the request token reaches the exchanger, which goes to the
    default tenant, or to the override when one is given. *)
Example end_to_end_scenario :
  let s := snd (OBOMiddleware.__call__ (H := PyRef.runtime) idle_app
                  request_with_jwt tt tt (Example.configured None)) in
  fst (get_user_tenant_id (H := PyRef.runtime) s)
    = Ret (PStr (text "tenant1")) /\
  fst (get_obo_headers None s)
    = Ret (Some [ (text "Authorization", text "Bearer issued-xyz");
                  (text "Content-Type", text "application/json") ]) /\
  fst (get_obo_headers (Some (text "tenant2")) s)
    = Ret (Some [ (text "Authorization", text "Bearer issued-tenant2");
                  (text "Content-Type", text "application/json") ]) /\
  fst (check_obo_tenant_auth (text "abc") (text "unknown") s) = Ret false.
Proof. repeat split; vm_compute; reflexivity. Qed.

(** * Further properties *)

(** ** The exchanger *)

Section exchanger_outcomes.
Context `{AzureIdentity}.

(** X1.  With one of the three settings empty, [get_obo_headers] returns
    [None] and leaves the whole state as it was, whatever the token in the
    context: the provider is not called. *)
Theorem get_obo_headers_not_configured (tenant_id : option str)
    (s : module_state) :
  fst (is_obo_configured s) = Ret false ->
  get_obo_headers tenant_id s = (Ret None, s).
Proof.
  intros Hconf. rewrite is_obo_configured_eq in Hconf. simpl in Hconf.
  unfold get_obo_headers, get_user_token, bind, gets, ret. simpl.
  destruct (ContextVar_get (_user_bearer_token s)) as [[|c t]|];
    try reflexivity.
  cbn beta iota delta [str_truthy]. rewrite is_obo_configured_eq.
  injection Hconf as ->. reflexivity.
Qed.

(** X2.  [get_obo_headers] never raises, and has three outcomes.  Either
    nothing happens: [None], state unchanged, when the token is absent or
    empty or delegation is not configured.  Or the exchange raises: [None],
    one warning with a fixed message is logged, the journal shows the
    constructor call alone or followed by one [get_token], and the
    configuration and the context token are as before.  Or the exchange
    issues a token: the two headers, two calls in the journal, nothing
    logged.  There is no retry and no scope other than [ARM_SCOPE]. *)
Theorem get_obo_headers_outcomes (tenant_id : option str) (s : module_state) :
  let tenant := selected_tenant tenant_id (OBO_TENANT_ID s) in
  (get_obo_headers tenant_id s = (Ret None, s) /\
   (opt_truthy (ContextVar_get (_user_bearer_token s)) = false \/
    fst (is_obo_configured s) = Ret false)) \/
  (exists (tok : str) (s' : module_state),
     fst (get_user_token s) = Ret (Some tok) /\
     exchange_raises tenant (OBO_CLIENT_ID s) (OBO_CLIENT_SECRET s) tok (idp s) /\
     get_obo_headers tenant_id s = (Ret None, s') /\
     log_records s' = log_records s ++ [exchange_failed_record] /\
     (idp_calls s' = idp_calls s ++
        [NewCredential tenant (OBO_CLIENT_ID s) (OBO_CLIENT_SECRET s) tok] \/
      idp_calls s' = idp_calls s ++
        [NewCredential tenant (OBO_CLIENT_ID s) (OBO_CLIENT_SECRET s) tok;
         GetToken ARM_SCOPE]) /\
     _user_bearer_token s' = _user_bearer_token s /\
     OBO_CLIENT_ID s' = OBO_CLIENT_ID s /\
     OBO_CLIENT_SECRET s' = OBO_CLIENT_SECRET s /\
     OBO_TENANT_ID s' = OBO_TENANT_ID s) \/
  (exists (tok : str) (issued : AccessToken) (p' : idp_state),
     fst (get_user_token s) = Ret (Some tok) /\
     exchange_issues tenant (OBO_CLIENT_ID s) (OBO_CLIENT_SECRET s) tok (idp s)
                     issued p' /\
     get_obo_headers tenant_id s
     = (Ret (Some [ (text "Authorization", text "Bearer " ++ token issued);
                    (text "Content-Type", text "application/json") ]),
        after_exchange s tenant tok p')).
Proof.
  intros tenant. subst tenant. rewrite <- or_default_selected.
  unfold get_obo_headers, get_user_token, bind, gets, ret. simpl.
  destruct (ContextVar_get (_user_bearer_token s)) as [[|c t]|] eqn:Htok;
    try (left; split; [reflexivity | left; reflexivity]).
  cbn beta iota delta [str_truthy]. rewrite is_obo_configured_eq.
  destruct (str_truthy (OBO_CLIENT_ID s) && str_truthy (OBO_CLIENT_SECRET s)
            && str_truthy (OBO_TENANT_ID s)) eqn:Hconf.
  2:{ left. split; [reflexivity | right; reflexivity]. }
  right.
  unfold _exchange_obo, try_except, bind, gets, ret, new_OnBehalfOfCredential,
    cred_get_token, call_idp, logger_warning, exchange_raises, exchange_issues.
  simpl.
  destruct (OnBehalfOfCredential (or_default tenant_id (OBO_TENANT_ID s))
              (OBO_CLIENT_ID s) (OBO_CLIENT_SECRET s) (c :: t) (idp s))
    as [[cred|e] p] eqn:Hc; simpl.
  - destruct (get_token cred ARM_SCOPE p) as [[issued|e] p'] eqn:Hg; simpl.
    + right. exists (c :: t), issued, p'. split; [reflexivity|].
      split; [eauto|]. unfold after_exchange. rewrite <- app_assoc.
      reflexivity.
    + left. exists (c :: t). eexists. split; [reflexivity|].
      split; [right; eauto 10|]. split; [reflexivity|]. simpl.
      split; [reflexivity|]. split; [|repeat split].
      right. rewrite <- app_assoc. reflexivity.
  - left. exists (c :: t). eexists. split; [reflexivity|].
    split; [left; eauto|]. split; [reflexivity|]. simpl.
    split; [reflexivity|]. split; [|repeat split].
    left. reflexivity.
Qed.

(** X3.  The token context is a slot: a read returns what the last
    [set_user_token] stored, [None] included; a second set overwrites the
    first and leaves the same state as setting once; a read changes
    nothing; and in a module just imported the read returns [None]. *)
Theorem user_token_round_trip (s : module_state) (v w : option str) :
  get_user_token (snd (set_user_token v s))
    = (Ret v, snd (set_user_token v s)) /\
  snd (set_user_token v (snd (set_user_token w s)))
    = snd (set_user_token v s) /\
  (exists r, get_user_token s = (Ret r, s)) /\
  (forall env provider,
     fst (get_user_token (module_init env provider)) = Ret None).
Proof.
  repeat split.
  eexists. reflexivity.
Qed.

(** X4.  For a configured module with a non-empty token in the context and
    a non-empty tenant, [check_obo_tenant_auth] on that token and tenant
    answers [True] exactly when [get_obo_headers] with that tenant as
    override returns headers; both leave the provider in the same state
    with the same calls in the journal. *)
Theorem check_agrees_with_headers (tok tenant : str) (s : module_state) :
  fst (is_obo_configured s) = Ret true ->
  fst (get_user_token s) = Ret (Some tok) ->
  tok <> [] -> tenant <> [] ->
  (fst (check_obo_tenant_auth tok tenant s) = Ret true <->
   exists h, fst (get_obo_headers (Some tenant) s) = Ret (Some h)) /\
  idp (snd (check_obo_tenant_auth tok tenant s))
    = idp (snd (get_obo_headers (Some tenant) s)) /\
  idp_calls (snd (check_obo_tenant_auth tok tenant s))
    = idp_calls (snd (get_obo_headers (Some tenant) s)).
Proof.
  intros Hconf Htok Hne Hten.
  rewrite is_obo_configured_eq in Hconf. simpl in Hconf.
  unfold get_obo_headers, bind. unfold get_user_token, bind, gets, ret in *.
  simpl in Htok. injection Htok as ->.
  destruct tok as [|c t]; [congruence|].
  destruct tenant as [|d ten]; [congruence|].
  cbn beta iota delta [str_truthy]. rewrite is_obo_configured_eq.
  injection Hconf as ->.
  unfold check_obo_tenant_auth, _exchange_obo, try_except, bind, gets, ret,
    new_OnBehalfOfCredential, cred_get_token, call_idp, logger_warning.
  simpl.
  destruct (OnBehalfOfCredential (d :: ten) (OBO_CLIENT_ID s)
              (OBO_CLIENT_SECRET s) (c :: t) (idp s))
    as [[cred|e] p]; simpl.
  - destruct (get_token cred ARM_SCOPE p) as [[issued|e] p']; simpl.
    + repeat split; eauto.
    + repeat split; try discriminate. intros [h Hh]. discriminate.
  - repeat split; try discriminate. intros [h Hh]. discriminate.
Qed.

(** X5.  [check_obo_tenant_auth] always calls the provider: it does not
    look at [is_obo_configured] nor at the token of the context, and it
    uses the tenant as given, without falling back to the default tenant.
    The journal grows by the constructor call with exactly the given tenant
    and token, followed by at most one [get_token] with [ARM_SCOPE]; the
    answer is the same whatever the context holds. *)
Theorem check_always_calls_provider (tok tenant : str) (b : binding)
    (s : module_state) :
  (exists rest,
     idp_calls (snd (check_obo_tenant_auth tok tenant s))
     = idp_calls s ++
       NewCredential tenant (OBO_CLIENT_ID s) (OBO_CLIENT_SECRET s) tok :: rest /\
     (rest = [] \/ rest = [GetToken ARM_SCOPE])) /\
  fst (check_obo_tenant_auth tok tenant (with_binding b s))
    = fst (check_obo_tenant_auth tok tenant s).
Proof.
  unfold check_obo_tenant_auth, try_except, bind, gets, ret,
    new_OnBehalfOfCredential, cred_get_token, call_idp. simpl.
  destruct (OnBehalfOfCredential tenant (OBO_CLIENT_ID s)
              (OBO_CLIENT_SECRET s) tok (idp s)) as [[cred|e] p]; simpl.
  - destruct (get_token cred ARM_SCOPE p) as [[issued|e] p']; simpl.
    + split; [|reflexivity]. exists [GetToken ARM_SCOPE].
      rewrite <- app_assoc. auto.
    + split; [|reflexivity]. exists [GetToken ARM_SCOPE].
      rewrite <- app_assoc. auto.
  - split; [|reflexivity]. exists []. auto.
Qed.

End exchanger_outcomes.

Lemma get_obo_headers_not_configured_witness :
  get_obo_headers (Some (text "tenant2"))
    (Example.unconfigured (Some (Some (text "user-token"))))
  = (Ret None, Example.unconfigured (Some (Some (text "user-token")))).
Proof. apply get_obo_headers_not_configured. reflexivity. Defined.

Lemma check_agrees_with_headers_witness :
  fst (check_obo_tenant_auth (text "user-token") (text "unknown")
         (Example.configured (Some (Some (text "user-token")))))
    = Ret true <->
  exists h,
    fst (get_obo_headers (Some (text "unknown"))
           (Example.configured (Some (Some (text "user-token")))))
    = Ret (Some h).
Proof.
  apply (check_agrees_with_headers (text "user-token") (text "unknown")
           (Example.configured (Some (Some (text "user-token"))))).
  - reflexivity.
  - reflexivity.
  - discriminate.
  - discriminate.
Defined.

(** ** The middleware *)

Section extraction_more.
Context `{PyRuntime}.
Import OBOMiddleware.



Lemma ascii_lower_below (c x : N) :
  ascii_lower c = x -> x < 128 ->
  (if c <? 128 then [ascii_lower c] else unicode_lower c) = [x].
Proof.
  unfold ascii_lower. intros Hx Hlt.
  destruct (c <? 128) eqn:Hc; [congruence|].
  apply N.ltb_ge in Hc.
  destruct ((65 <=? c) && (c <=? 90)) eqn:Hr; [|lia].
  apply andb_true_iff in Hr as [_ Hr]. apply N.leb_le in Hr. lia.
Qed.

(** Lower-casing a prefix made of ASCII letters in any case. *)
Lemma lower_ascii_prefix (prefix rest : str) :
  Forall (fun x => x < 128) (map ascii_lower prefix) ->
  lower unicode_lower (prefix ++ rest)
  = map ascii_lower prefix ++ lower unicode_lower rest.
Proof.
  unfold lower. induction prefix as [|c prefix IH]; simpl; intros Hall.
  - reflexivity.
  - apply Forall_cons in Hall as [Hc Hall].
    rewrite (ascii_lower_below c (ascii_lower c) eq_refl Hc). simpl.
    rewrite IH by exact Hall. reflexivity.
Qed.

Lemma startswith_app (p rest : str) : startswith (p ++ rest) p = true.
Proof.
  induction p as [|x p IH]; simpl; [destruct rest; reflexivity|].
  rewrite N.eqb_refl. exact IH.
Qed.

(** X7.  The scheme of an [Authorization] header is recognised in any mix
    of upper and lower case, and the token is exactly what follows its seven
    characters, trimmed: when no platform token is present and the last
    bearer header reads [scheme ++ rest], with [scheme] any spelling of
    [bearer] and a space, the extracted token is [rest] without its
    surrounding white space. *)
Theorem extract_token_scheme_any_case (scope : asgi_scope)
    (pre post : list (bytes * bytes)) (name value : bytes)
    (scheme rest : str) :
  default [] (scope_headers scope) = pre ++ (name, value) :: post ->
  headers_decodable (pre ++ (name, value) :: post) = true ->
  no_easyauth_token (pre ++ (name, value) :: post) ->
  none_such is_bearer post ->
  is_authorization (name, value) = true ->
  decode value = Ret (scheme ++ rest) ->
  map ascii_lower scheme = text "bearer " ->
  _extract_token scope = Ret (Some (strip rest)).
Proof.
  intros Hhs Hd Hno Hpost Hauth Hv Hscheme.
  assert (Hlow : lower unicode_lower (scheme ++ rest)
                 = text "bearer " ++ lower unicode_lower rest).
  { rewrite lower_ascii_prefix; rewrite Hscheme; [reflexivity|].
    vm_compute. repeat constructor. }
  assert (Hlen : length scheme = 7%nat).
  { rewrite <- (length_map ascii_lower), Hscheme. reflexivity. }
  assert (Hbearer : is_bearer (name, value) = true).
  { unfold is_bearer. rewrite Hauth. simpl. rewrite Hv, Hlow.
    apply startswith_app. }
  assert (Hlast : last_such is_bearer (pre ++ (name, value) :: post)
                    (name, value)).
  { exists pre, post. auto. }
  unfold _extract_token. rewrite Hhs.
  destruct (for_headers_no_easyauth_token _ Hd Hno) as (e & a & Hrun & He).
  destruct (for_headers_last_bearer _ (name, value) (scheme ++ rest)
              Hd Hlast Hv) as [e' Hrun'].
  assert (Hslice : slice_from 7 (scheme ++ rest) = rest).
  { unfold slice_from. rewrite <- Hlen.
    rewrite skipn_app, skipn_all, Nat.sub_diag. reflexivity. }
  rewrite Hslice in Hrun'.
  rewrite Hrun in Hrun'. injection Hrun' as <- ->.
  rewrite Hrun. cbn [obind]. unfold opt_or. rewrite He. reflexivity.
Qed.

(** X8.  [_extract_token] raises only [UnicodeDecodeError], and does so
    exactly when some header name, or the value of a platform or
    [Authorization] header, is not valid UTF-8; otherwise it returns. *)
Theorem extract_token_raises_iff_undecodable (scope : asgi_scope) :
  let hs := default [] (scope_headers scope) in
  (forall e, _extract_token scope = Raise e ->
             e = UnicodeDecodeError /\ headers_decodable hs = false) /\
  (headers_decodable hs = false ->
   _extract_token scope = Raise UnicodeDecodeError) /\
  (headers_decodable hs = true -> exists r, _extract_token scope = Ret r).
Proof.
  intros hs. subst hs. split; [|split].
  - intros e He.
    destruct (headers_decodable (default [] (scope_headers scope))) eqn:Hd.
    + destruct (for_headers_total _ Hd (None, None)) as [[a b] Hrun].
      unfold _extract_token in He. rewrite Hrun in He. discriminate.
    + rewrite (extract_token_undecodable scope Hd) in He.
      injection He as <-. auto.
  - apply extract_token_undecodable.
  - intros Hd.
    destruct (for_headers_total _ Hd (None, None)) as [[a b] Hrun].
    unfold _extract_token. rewrite Hrun. simpl. eauto.
Qed.

End extraction_more.


Lemma extract_token_scheme_any_case_witness :
  OBOMiddleware._extract_token (H := PyRef.runtime) request_mixed_case
  = Ret (Some (text "T3")).
Proof.
  apply (extract_token_scheme_any_case (H := PyRef.runtime) request_mixed_case
           [ (blit "Authorization", blit "Basic dXNlcjpwdw==") ]
           [ (blit "accept", [xff]) ]
           (blit "AUTHORIZATION") (blit "BeArEr  T3 ")
           (text "BeArEr ") (text " T3 ")).
  - reflexivity.
  - reflexivity.
  - left. reflexivity.
  - reflexivity.
  - reflexivity.
  - reflexivity.
  - reflexivity.
Defined.

Section anonymous_requests.
Context `{PyRuntime} `{AzureIdentity} {Receive Send : Type}.
Import OBOMiddleware.

(** X9.  A request without credentials, whose header names and whose
    platform and [Authorization] values are valid UTF-8, never reaches the
    provider, even if the context held a token before: on such an [http]
    scope with no usable platform token and no bearer token, the middleware
    hands the next application a state in which the context token is
    [None], and in that state [get_obo_headers] returns [None] without any
    call to the provider and [get_user_tenant_id] returns [None]. *)
Theorem anonymous_request_makes_no_exchange
    (self : t (Receive := Receive) (Send := Send)) (scope : asgi_scope)
    (receive : Receive) (send : Send) (s : module_state)
    (tenant_id : option str) :
  let hs := default [] (scope_headers scope) in
  scope_type scope = Some (text "http") ->
  headers_decodable hs = true ->
  no_easyauth_token hs ->
  none_such is_bearer hs ->
  exists s1 : module_state,
    __call__ self scope receive send s = app self scope receive send s1 /\
    fst (get_user_token s1) = Ret None /\
    get_obo_headers tenant_id s1 = (Ret None, s1) /\
    get_user_tenant_id s1 = (Ret PNone, s1) /\
    idp_calls s1 = idp_calls s /\ idp s1 = idp s.
Proof.
  intros hs Hty Hd Hno Hnone. subst hs.
  assert (Hext : _extract_token scope = Ret None).
  { unfold _extract_token.
    destruct (for_headers_no_easyauth_token _ Hd Hno) as (e & a & Hrun & He).
    destruct (for_headers_no_bearer _ Hd Hnone (None, None)) as [e' Hrun'].
    rewrite Hrun in Hrun'. injection Hrun' as <- ->.
    rewrite Hrun. simpl. unfold opt_or. rewrite He. reflexivity. }
  exists (with_binding (Some None) s).
  split; [|repeat split].
  unfold __call__, bind, lift, scope_getitem_type, set_user_token.
  rewrite Hty, Hext. reflexivity.
Qed.

End anonymous_requests.

Lemma anonymous_request_makes_no_exchange_witness :
  exists s1,
    OBOMiddleware.__call__ (H := PyRef.runtime) idle_app request_anonymous tt tt
      (Example.configured (Some (Some (text "stale"))))
    = (Ret tt, s1) /\
    get_obo_headers None s1 = (Ret None, s1).
Proof.
  destruct (anonymous_request_makes_no_exchange (H := PyRef.runtime)
              idle_app request_anonymous tt tt
              (Example.configured (Some (Some (text "stale")))) None)
    as (s1 & Hcall & _ & Hheaders & _).
  - reflexivity.
  - reflexivity.
  - left. reflexivity.
  - reflexivity.
  - exists s1. split; [exact Hcall | exact Hheaders].
Defined.

(** ** The claim extractor *)

Section hint_more.
Context `{PyRuntime} `{AzureIdentity}.

Lemma split_no_separator (sep : N) (s : str) :
  Forall (fun c => c <> sep) s -> split sep s = [s].
Proof.
  induction 1 as [|c s Hc _ IH]; simpl; [reflexivity|].
  apply N.eqb_neq in Hc. rewrite Hc, IH. reflexivity.
Qed.

Lemma split_at_separator (sep : N) (a r : str) :
  Forall (fun c => c <> sep) a ->
  split sep (a ++ sep :: r) = a :: split sep r.
Proof.
  induction 1 as [|c a Hc _ IH]; simpl.
  - rewrite N.eqb_refl. reflexivity.
  - apply N.eqb_neq in Hc. rewrite Hc, IH. reflexivity.
Qed.

(** The second segment of a token of two or more segments. *)
Lemma second_segment (a segment tail : str) :
  no_dot a -> no_dot segment -> segment_tail tail ->
  nth_error (split 46 (a ++ 46 :: segment ++ tail)) 1 = Some segment.
Proof.
  intros Ha Hseg [-> | [r ->]].
  - rewrite app_nil_r, split_at_separator by exact Ha.
    rewrite split_no_separator by exact Hseg. reflexivity.
  - rewrite split_at_separator by exact Ha.
    rewrite split_at_separator by exact Hseg. reflexivity.
Qed.

(** The hint of a non-empty token is the hint of its second segment. *)
Lemma get_user_tenant_id_segment (s : module_state) (t segment : str) :
  fst (get_user_token s) = Ret (Some t) -> t <> [] ->
  nth_error (split 46 t) 1 = Some segment ->
  get_user_tenant_id s = (Ret (segment_hint segment), s).
Proof.
  intros Htok Hne Hseg.
  unfold get_user_tenant_id, bind. unfold get_user_token, bind, gets, ret in *.
  simpl in Htok. injection Htok as ->.
  destruct t as [|c t']; [congruence|].
  cbn beta iota delta [str_truthy].
  unfold try_except, lift, bind, ret, index. rewrite Hseg.
  rewrite neg_mod4_padding. unfold repeat_char. fold (padded segment).
  unfold segment_hint.
  destruct (urlsafe_b64decode (padded segment)) as [raw|e]; [|reflexivity].
  destruct (json_loads raw) as [claims|e]; [|reflexivity].
  destruct claims; try reflexivity.
  rewrite get_claim_of. reflexivity.
Qed.

(** X10.  A token without a dot has no payload segment: the hint is
    [None], whatever the decoder and the parser would make of it, and the
    state is unchanged. *)
Theorem get_user_tenant_id_no_dot (s : module_state) (t : str) :
  fst (get_user_token s) = Ret (Some t) ->
  no_dot t ->
  get_user_tenant_id s = (Ret PNone, s).
Proof.
  intros Htok Hdot.
  unfold get_user_tenant_id, bind. unfold get_user_token, bind, gets, ret in *.
  simpl in Htok. injection Htok as ->.
  destruct (str_truthy t); [|reflexivity].
  unfold try_except, lift, bind, ret, index.
  rewrite (split_no_separator 46 t Hdot). reflexivity.
Qed.

(** X11.  The hint depends on the second segment of the token alone: two
    tokens with the same second segment give the same hint, whatever their
    first segments and whatever follows the second one (a signature, more
    segments, or nothing).  Nothing but the payload is read, and nothing is
    verified. *)
Theorem get_user_tenant_id_payload_only (s1 s2 : module_state)
    (a b segment tail1 tail2 : str) :
  no_dot a -> no_dot b -> no_dot segment ->
  segment_tail tail1 -> segment_tail tail2 ->
  fst (get_user_token s1) = Ret (Some (a ++ 46 :: segment ++ tail1)) ->
  fst (get_user_token s2) = Ret (Some (b ++ 46 :: segment ++ tail2)) ->
  fst (get_user_tenant_id s1) = fst (get_user_tenant_id s2).
Proof.
  intros Ha Hb Hseg Ht1 Ht2 Htok1 Htok2.
  rewrite (get_user_tenant_id_segment s1 _ segment Htok1),
          (get_user_tenant_id_segment s2 _ segment Htok2); try reflexivity.
  - intros Habs. apply app_eq_nil in Habs as [_ Habs]. discriminate.
  - apply second_segment; assumption.
  - intros Habs. apply app_eq_nil in Habs as [_ Habs]. discriminate.
  - apply second_segment; assumption.
Qed.

End hint_more.

Lemma get_user_tenant_id_no_dot_witness :
  get_user_tenant_id (H := PyRef.runtime)
    (Example.configured (Some (Some (text "eyJ0aWQiOiJhIn0"))))
  = (Ret PNone, Example.configured (Some (Some (text "eyJ0aWQiOiJhIn0")))).
Proof.
  apply (get_user_tenant_id_no_dot (H := PyRef.runtime)
           (Example.configured (Some (Some (text "eyJ0aWQiOiJhIn0"))))
           (text "eyJ0aWQiOiJhIn0")).
  - reflexivity.
  - vm_compute. repeat constructor; discriminate.
Defined.

Lemma get_user_tenant_id_payload_only_witness :
  fst (get_user_tenant_id (H := PyRef.runtime)
         (Example.configured (Some (Some (text "abc.eyJ0aWQiOiJ0ZW5hbnQxIn0.sig")))))
  = fst (get_user_tenant_id (H := PyRef.runtime)
           (Example.configured (Some (Some (text ".eyJ0aWQiOiJ0ZW5hbnQxIn0"))))).
Proof.
  apply (get_user_tenant_id_payload_only (H := PyRef.runtime) _ _
           (text "abc") empty_str (text "eyJ0aWQiOiJ0ZW5hbnQxIn0")
           (text ".sig") empty_str).
  - vm_compute. repeat constructor; discriminate.
  - constructor.
  - vm_compute. repeat constructor; discriminate.
  - right. eexists. reflexivity.
  - left. reflexivity.
  - reflexivity.
  - reflexivity.
Defined.

(** ** From the request to the provider *)

Section request_to_provider.
Context `{PyRuntime} `{AzureIdentity} {Receive Send : Type}.
Import OBOMiddleware.

(** X12.  The token of the request is the assertion sent to the provider:
    when the middleware extracts a non-empty token from an [http] scope and
    delegation is configured, [get_obo_headers], run in the state handed to
    the next application, first calls the constructor of the credential with
    the selected tenant, the configured client identifier and secret, and
    exactly that token, whatever the context held before. *)
Theorem request_token_is_the_assertion
    (self : t (Receive := Receive) (Send := Send)) (scope : asgi_scope)
    (receive : Receive) (send : Send) (s : module_state)
    (tenant_id : option str) (tok : str) :
  scope_type scope = Some (text "http") ->
  _extract_token scope = Ret (Some tok) ->
  tok <> [] ->
  fst (is_obo_configured s) = Ret true ->
  exists (s1 : module_state) (rest : list idp_call),
    __call__ self scope receive send s = app self scope receive send s1 /\
    fst (get_user_token s1) = Ret (Some tok) /\
    idp_calls (snd (get_obo_headers tenant_id s1))
    = idp_calls s ++
      NewCredential (selected_tenant tenant_id (OBO_TENANT_ID s))
        (OBO_CLIENT_ID s) (OBO_CLIENT_SECRET s) tok :: rest /\
    (rest = [] \/ rest = [GetToken ARM_SCOPE]).
Proof.
  intros Hty Hext Hne Hconf.
  rewrite is_obo_configured_eq in Hconf. simpl in Hconf.
  rewrite <- or_default_selected.
  exists (with_binding (Some (Some tok)) s).
  unfold __call__, bind, lift, scope_getitem_type, set_user_token.
  rewrite Hty, Hext. simpl.
  unfold get_obo_headers, get_user_token, bind, gets, ret. simpl.
  destruct tok as [|c t]; [congruence|].
  cbn beta iota delta [str_truthy]. rewrite is_obo_configured_eq. simpl.
  injection Hconf as ->.
  unfold _exchange_obo, try_except, bind, gets, ret, new_OnBehalfOfCredential,
    cred_get_token, call_idp, logger_warning. simpl.
  destruct (OnBehalfOfCredential (or_default tenant_id (OBO_TENANT_ID s))
              (OBO_CLIENT_ID s) (OBO_CLIENT_SECRET s) (c :: t) (idp s))
    as [[cred|e] p]; simpl.
  - destruct (get_token cred ARM_SCOPE p) as [[issued|e] p']; simpl;
      exists [GetToken ARM_SCOPE]; rewrite <- app_assoc; auto.
  - exists []. auto.
Qed.

End request_to_provider.

Lemma request_token_is_the_assertion_witness :
  exists s1 rest,
    OBOMiddleware.__call__ (H := PyRef.runtime) idle_app request_mixed_case
      tt tt (Example.configured (Some (Some (text "stale"))))
    = (Ret tt, s1) /\
    idp_calls (snd (get_obo_headers None s1))
    = NewCredential (text "tenant1") (text "client-id")
        (text "client-secret") (text "T3") :: rest.
Proof.
  destruct (request_token_is_the_assertion (H := PyRef.runtime)
              idle_app request_mixed_case tt tt
              (Example.configured (Some (Some (text "stale")))) None
              (text "T3"))
    as (s1 & rest & Hcall & _ & Hcalls & _).
  - reflexivity.
  - reflexivity.
  - discriminate.
  - reflexivity.
  - exists s1, rest. split; [exact Hcall | exact Hcalls].
Defined.
